(** * Marketing Intelligence Dashboard: the data pipeline of [dashboard.py]

    A shallow embedding of the data path of [src/dashboard.py]:
    [load_data] (CSV read with fallback to sample data, date conversion and
    the three "safe" derived columns), the filter step of [main],
    [calculate_kpis], [create_channel_chart] and
    [create_spend_distribution_chart].

    Modelling choices.
    - A DataFrame is the list of its rows, in index order; a Series is the
      list of its values.  Every Series combined below is taken from the very
      frame it is assigned back to, so pandas' index alignment is positional.
    - Money columns are exact rationals ([Q]); count columns are integers
      ([Z]) and are converted on true division, as pandas does.  Rounding of
      binary floating point and signed zeros are not modelled.
    - The numeric columns of a frame are either of dtype float64/int64 or of
      dtype object ([dtype]).  An int64 sum wraps around modulo 2^64
      ([wrap64]); a sum of Python integers in an object column does not.
    - Division of float64/int64 columns never raises: a zero denominator
      yields [inf], [-inf] or [NaN], which the type [fval] keeps apart from
      the finite values.  Division of object columns is Python's [/] on each
      pair of cells and raises [ZeroDivisionError] on a zero denominator.
    - A Timestamp is the number of nanoseconds since 1970-01-01 00:00; a
      [datetime.date] is represented by the Timestamp of its midnight.
    - [pd.read_csv], the parsing of one date text by [pd.to_datetime] and
      [np.random] are taken as parameters of [load_data]. *)

From Stdlib Require Import ZArith QArith List String Ascii Bool Lia.
From Stdlib Require Import Sorted OrdersEx RelationClasses.
From Stdlib Require Import Permutation.
Import ListNotations.

Local Open Scope Q_scope.
Local Open Scope string_scope.
Local Open Scope list_scope.

(* ================================================================== *)
(** ** Numbers: results of pandas / numpy true division *)

Inductive fval : Type :=
| Fin (q : Q)
| PInf
| NInf
| NaN.

(** [a / b] on float64 values: finite when [b] is not zero, otherwise
    [NaN] for [0 / 0] and an infinity with the sign of [a]. *)
Definition pdiv (a b : Q) : fval :=
  if Qeq_bool b 0 then
    if Qeq_bool a 0 then NaN
    else if Qle_bool a 0 then NInf else PInf
  else Fin (a / b).

(** [x * k] for a float64 [x] and a finite scalar [k]. *)
Definition fmul (x : fval) (k : Q) : fval :=
  match x with
  | Fin q => Fin (q * k)
  | PInf => if Qeq_bool k 0 then NaN else if Qle_bool k 0 then NInf else PInf
  | NInf => if Qeq_bool k 0 then NaN else if Qle_bool k 0 then PInf else NInf
  | NaN => NaN
  end.

Definition is_finite (x : fval) : bool :=
  match x with Fin _ => true | _ => false end.

(** Numeric equality ([==] of IEEE 754: [NaN] equals nothing). *)
Definition feq (x y : fval) : Prop :=
  match x, y with
  | Fin a, Fin b => a == b
  | PInf, PInf => True
  | NInf, NInf => True
  | _, _ => False
  end.

Definition feqb (x y : fval) : bool :=
  match x, y with
  | Fin a, Fin b => Qeq_bool a b
  | PInf, PInf => true
  | NInf, NInf => true
  | _, _ => false
  end.

Definition Qgt_bool (a b : Q) : bool := negb (Qle_bool a b).

(* ================================================================== *)
(** ** Dates *)

(** Nanoseconds in a day. *)
Definition day_ns : Z := 86400000000000.

(** [pd.Timestamp(y, m, d)]: midnight of the proleptic Gregorian date
    [y]-[m]-[d], in nanoseconds since 1970-01-01 00:00. *)
Definition Timestamp (y m d : Z) : Z :=
  let y' := (if m <=? 2 then y - 1 else y)%Z in
  let era := (y' / 400)%Z in
  let yoe := (y' - era * 400)%Z in
  let mp := ((m + 9) mod 12)%Z in
  let doy := ((153 * mp + 2) / 5 + d - 1)%Z in
  let doe := (yoe * 365 + yoe / 4 - yoe / 100 + doy)%Z in
  ((era * 146097 + doe - 719468) * day_ns)%Z.

(** [pd.date_range(start=..., periods=n, freq='D')] *)
Definition date_range_D (start : Z) (periods : nat) : list Z :=
  map (fun i => (start + Z.of_nat i * day_ns)%Z) (seq 0 periods).

(** [ts.date()]: the calendar day of a Timestamp, its time of day dropped. *)
Definition date_of (ts : Z) : Z := (ts / day_ns * day_ns)%Z.

(* ================================================================== *)
(** ** Column dtypes and int64 arithmetic *)

(** The dtype of the numeric columns of a frame: float64 and int64, or
    object (the cells are Python floats and integers). *)
Inductive dtype : Type :=
| Numeric
| Object.

(** The int64 value that an integer is reduced to. *)
Definition wrap64 (z : Z) : Z := ((z + 2 ^ 63) mod 2 ^ 64 - 2 ^ 63)%Z.

(* ================================================================== *)
(** ** pandas Series operations *)

Module Series.

(** [s.replace(to_replace, value)] *)
Definition replace {A} (eqb : A -> A -> bool) (to_replace value : A)
           (s : list A) : list A :=
  map (fun x => if eqb x to_replace then value else x) s.

(** [a / b], element by element *)
Fixpoint truediv (a b : list Q) : list fval :=
  match a, b with
  | x :: a', y :: b' => pdiv x y :: truediv a' b'
  | _, _ => []
  end.

(** [s * k] *)
Definition mul (s : list fval) (k : Q) : list fval :=
  map (fun x => fmul x k) s.

(** int64 values entering a true division *)
Definition to_float (s : list Z) : list Q := map inject_Z s.

(** [s.sum()] of a float column, of an int64 column (every addition wraps
    around), of an object column of Python integers, and of an integer
    column of either dtype. *)
Definition sum (s : list Q) : Q := fold_left Qplus s 0.
Definition sumZ (s : list Z) : Z :=
  fold_left (fun acc x => wrap64 (acc + x)) s 0%Z.
Definition sum_object (s : list Z) : Z := fold_left Z.add s 0%Z.
Definition sum_int (dt : dtype) (s : list Z) : Z :=
  match dt with
  | Numeric => sumZ s
  | Object => sum_object s
  end.

(** [s >= v], [s <= v], [s.isin(values)], [a & b] *)
Definition ge (s : list Z) (v : Z) : list bool := map (fun x => (v <=? x)%Z) s.
Definition le (s : list Z) (v : Z) : list bool := map (fun x => (x <=? v)%Z) s.
Definition isin (s : list string) (values : list string) : list bool :=
  map (fun x => existsb (String.eqb x) values) s.

Fixpoint and (a b : list bool) : list bool :=
  match a, b with
  | x :: a', y :: b' => (x && y) :: and a' b'
  | _, _ => []
  end.

End Series.

(** [df[mask]]: the rows whose mask entry is [True], in order. *)
Fixpoint bool_index {A} (df : list A) (mask : list bool) : list A :=
  match df, mask with
  | r :: df', b :: mask' =>
      if b then r :: bool_index df' mask' else bool_index df' mask'
  | _, _ => []
  end.

(** [df.groupby(key)] with pandas' default [sort=True]: the groups are kept
    ordered by key; inside a group the rows keep their order. *)
Fixpoint group_insert {A} (k : string) (r : A) (gs : list (string * list A))
  : list (string * list A) :=
  match gs with
  | [] => [(k, [r])]
  | (k', rs) :: gs' =>
      match String_as_OT.compare k k' with
      | Eq => (k', rs ++ [r]) :: gs'
      | Lt => (k, [r]) :: gs
      | Gt => (k', rs) :: group_insert k r gs'
      end
  end.

Definition groupby {A} (key : A -> string) (df : list A)
  : list (string * list A) :=
  fold_left (fun gs r => group_insert (key r) r gs) df [].

(** The distinct values of a column in the order in which each one first
    appears ([s.unique()]). *)
Fixpoint unique (s : list string) : list string :=
  match s with
  | [] => []
  | x :: s' => x :: filter (fun y => negb (String.eqb y x)) (unique s')
  end.

(* ================================================================== *)
(** ** Data model *)

(** A date cell: text as read from a CSV file, or already a Timestamp. *)
Inductive cell_date : Type :=
| DStr (s : string)
| DTs (d : Z).

(** A row of [Facebook.csv], [Google.csv] or [TikTok.csv]. *)
Record csv_mrow : Type := {
  c_date : cell_date;
  c_tactic : string;
  c_state : string;
  c_impression : Z;
  c_clicks : Z;
  c_spend : Q;
  c_attributed_revenue : Q
}.

(** A marketing row once tagged with its platform. *)
Record raw_mrow : Type := {
  r_date : cell_date;
  r_platform : string;
  r_tactic : string;
  r_state : string;
  r_impression : Z;
  r_clicks : Z;
  r_spend : Q;
  r_attributed_revenue : Q
}.

(** A row of [marketing_df] as [load_data] returns it. *)
Record mrow : Type := {
  date : Z;
  platform : string;
  tactic : string;
  state : string;
  impression : Z;
  clicks : Z;
  spend : Q;
  attributed_revenue : Q;
  roas : fval;
  ctr : fval;
  cpc : fval
}.

(** A row of [Business.csv] / of the sample business data. *)
Record raw_brow : Type := {
  rb_date : cell_date;
  rb_orders : Z;
  rb_new_customers : Z;
  rb_total_revenue : Q;
  rb_gross_profit : Q
}.

(** A row of [business_df] as [load_data] returns it. *)
Record brow : Type := {
  b_date : Z;
  orders : Z;
  new_customers : Z;
  total_revenue : Q;
  gross_profit : Q
}.

(* ================================================================== *)
(** ** Exceptions *)

Inductive exn : Type :=
| FileNotFoundError (msg : string)
| ParserError (msg : string)
| ValueError (msg : string)
| ZeroDivisionError (msg : string).

Inductive result (A : Type) : Type :=
| Ok (a : A)
| Raise (e : exn).
Arguments Ok {A} a.
Arguments Raise {A} e.

Definition rbind {A B} (c : result A) (k : A -> result B) : result B :=
  match c with
  | Ok a => k a
  | Raise e => Raise e
  end.

Notation "x <- c ;; k" := (rbind c (fun x => k))
  (at level 61, c at next level, right associativity).

(** A [for] loop whose body may raise: the first exception ends it. *)
Fixpoint for_each {A B} (f : A -> result B) (l : list A) : result (list B) :=
  match l with
  | [] => Ok []
  | x :: l' => y <- f x ;; ys <- for_each f l' ;; Ok (y :: ys)
  end.

(** [a / b] on two object columns: Python's [/] on each pair of cells, in
    order; the first zero denominator raises. *)
Fixpoint truediv_object (msg : string) (a b : list Q) : result (list fval) :=
  match a, b with
  | x :: a', y :: b' =>
      if Qeq_bool y 0 then Raise (ZeroDivisionError msg)
      else l <- truediv_object msg a' b' ;; Ok (Fin (x / y) :: l)
  | _, _ => Ok []
  end.

(** [a / b] on two columns of dtype [dt]; [msg] is the text of Python's
    exception. *)
Definition truediv_on (dt : dtype) (msg : string) (a b : list Q)
  : result (list fval) :=
  match dt with
  | Numeric => Ok (Series.truediv a b)
  | Object => truediv_object msg a b
  end.

(** The dtype of the numeric columns of [pd.concat(dfs)]: a frame without
    rows has columns of dtype object, and one such frame makes the columns
    of the concatenation object as well. *)
Definition concat_dtype {A} (dfs : list (list A)) : dtype :=
  if existsb (fun df => match df with [] => true | _ :: _ => false end) dfs
  then Object else Numeric.

(** The first text of a date column, from which [pd.to_datetime] guesses the
    format of the whole column. *)
Fixpoint first_text (s : list cell_date) : option string :=
  match s with
  | [] => None
  | DStr t :: _ => Some t
  | DTs _ :: s' => first_text s'
  end.

(* ================================================================== *)
(** ** [load_data] *)

Section LoadData.

(** The state of [np.random] and its three draws used by the sample data. *)
Variable G : Type.
Variable randint : Z -> Z -> G -> Z * G.
Variable uniform : Q -> Q -> G -> Q * G.
Variable choice : list string -> G -> string * G.

(** [pd.read_csv] on a marketing file and on the business file.
    [parse_date t0 t] is the date text [t] parsed the way [pd.to_datetime]
    parses the cells of a column whose first text is [t0]: with the format
    it guesses from [t0], or on its own when no format can be guessed. *)
Variable read_marketing_csv : string -> result (list csv_mrow).
Variable read_business_csv : string -> result (list raw_brow).
Variable parse_date : string -> string -> option Z.

Definition Rand (A : Type) : Type := G -> A * G.
Definition gret {A} (a : A) : Rand A := fun g => (a, g).
Definition gbind {A B} (c : Rand A) (k : A -> Rand B) : Rand B :=
  fun g => let (a, g') := c g in k a g'.

Notation "x <~ c ;; k" := (gbind c (fun x => k))
  (at level 61, c at next level, right associativity).

Fixpoint gfor {A B} (f : A -> Rand B) (l : list A) : Rand (list B) :=
  match l with
  | [] => gret []
  | x :: l' => y <~ f x ;; ys <~ gfor f l' ;; gret (y :: ys)
  end.

Definition sources : list (string * string) :=
  [("Facebook", "Facebook.csv"); ("Google", "Google.csv");
   ("TikTok", "TikTok.csv")].

(** [df['platform'] = platform] *)
Definition set_platform (p : string) (c : csv_mrow) : raw_mrow :=
  {| r_date := c_date c; r_platform := p; r_tactic := c_tactic c;
     r_state := c_state c; r_impression := c_impression c;
     r_clicks := c_clicks c; r_spend := c_spend c;
     r_attributed_revenue := c_attributed_revenue c |}.

(** The body of the [try]: the three marketing files in order, then the
    business file. *)
Definition read_files : result (list raw_mrow * list raw_brow) :=
  dfs <- for_each (fun pf : string * string =>
                     df <- read_marketing_csv (snd pf) ;;
                     Ok (map (set_platform (fst pf)) df)) sources ;;
  business_df <- read_business_csv "Business.csv" ;;
  Ok (List.concat dfs, business_df).

(** One dictionary appended to [marketing_data]. *)
Definition sample_marketing_row (d : Z) (p : string) : Rand raw_mrow :=
  impressions <~ randint 50000 200000 ;;
  clicks <~ randint 1000 5000 ;;
  spend <~ uniform 500 3000 ;;
  tactic <~ choice ["ASC"; "Retargeting"; "Search"] ;;
  state <~ choice ["NY"; "CA"; "TX"; "FL"] ;;
  m <~ uniform (3 # 2) 4 ;;
  gret {| r_date := DTs d; r_platform := p; r_tactic := tactic;
          r_state := state; r_impression := impressions;
          r_clicks := clicks; r_spend := spend;
          r_attributed_revenue := spend * m |}.

(** One dictionary appended to [business_data]. *)
Definition sample_business_row (d : Z) : Rand raw_brow :=
  revenue <~ uniform 20000 40000 ;;
  n_orders <~ randint 200 400 ;;
  n_new <~ randint 40 120 ;;
  f <~ uniform (2 # 5) (3 # 5) ;;
  gret {| rb_date := DTs d; rb_orders := n_orders;
          rb_new_customers := n_new; rb_total_revenue := revenue;
          rb_gross_profit := revenue * f |}.

Definition sample_platforms : list string := ["Facebook"; "Google"; "TikTok"].

(** The body of the [except] handler after the warning. *)
Definition sample_data : Rand (list raw_mrow * list raw_brow) :=
  let dates := date_range_D (Timestamp 2025 5 16) 120 in
  per_day <~ gfor (fun d => gfor (sample_marketing_row d) sample_platforms)
                  dates ;;
  business_data <~ gfor sample_business_row dates ;;
  gret (List.concat per_day, business_data).

Definition exn_str (e : exn) : string :=
  match e with
  | FileNotFoundError m => m
  | ParserError m => m
  | ValueError m => m
  | ZeroDivisionError m => m
  end.

Definition warning_text (e : exn) : string :=
  ("CSV files not found. Error: " ++ exn_str e ++ ". Using sample data.")%string.

(** The parser that [pd.to_datetime] applies to every text of the column
    [s]. *)
Definition column_parser (s : list cell_date) : string -> option Z :=
  match first_text s with
  | Some t0 => parse_date t0
  | None => fun _ => None
  end.

(** [pd.to_datetime] on a whole column: Timestamps stay, every text is
    parsed in the format of the column, and the first one that does not fit
    raises. *)
Definition to_datetime (s : list cell_date) : result (list Z) :=
  for_each (fun c => match c with
                     | DTs d => Ok d
                     | DStr t => match column_parser s t with
                                 | Some d => Ok d
                                 | None => Raise (ValueError t)
                                 end
                     end) s.

(** The dtype of the numeric columns of the marketing frame that
    [load_data] returns: that of the concatenated files, or float64/int64
    for the sample data. *)
Definition load_dtype : dtype :=
  match for_each (fun pf : string * string => read_marketing_csv (snd pf))
                 sources with
  | Ok dfs =>
      match read_business_csv "Business.csv" with
      | Ok _ => concat_dtype dfs
      | Raise _ => Numeric
      end
  | Raise _ => Numeric
  end.

(** The four column assignments on [marketing_df], row by row. *)
Fixpoint assign_marketing (df : list raw_mrow) (dates : list Z)
         (c_roas c_ctr c_cpc : list fval) : list mrow :=
  match df, dates with
  | r :: df', d :: dates' =>
      match c_roas, c_ctr, c_cpc with
      | x :: c_roas', y :: c_ctr', z :: c_cpc' =>
          {| date := d; platform := r_platform r; tactic := r_tactic r;
             state := r_state r; impression := r_impression r;
             clicks := r_clicks r; spend := r_spend r;
             attributed_revenue := r_attributed_revenue r;
             roas := x; ctr := y; cpc := z |}
            :: assign_marketing df' dates' c_roas' c_ctr' c_cpc'
      | _, _, _ => []
      end
  | _, _ => []
  end.

(** [business_df['date'] = pd.to_datetime(business_df['date'])] *)
Fixpoint assign_business (df : list raw_brow) (dates : list Z) : list brow :=
  match df, dates with
  | r :: df', d :: dates' =>
      {| b_date := d; orders := rb_orders r;
         new_customers := rb_new_customers r;
         total_revenue := rb_total_revenue r;
         gross_profit := rb_gross_profit r |} :: assign_business df' dates'
  | _, _ => []
  end.

(** Lines 82-91: date conversion and the "safe calculations".  On object
    columns the three divisions are Python's; their denominators have been
    replaced where they were zero, so they give the same quotients. *)
Definition convert_and_derive (marketing_df : list raw_mrow)
           (business_df : list raw_brow) : result (list mrow * list brow) :=
  m_dates <- to_datetime (map r_date marketing_df) ;;
  b_dates <- to_datetime (map rb_date business_df) ;;
  let c_roas :=
    Series.truediv (map r_attributed_revenue marketing_df)
                   (Series.replace Qeq_bool 0 1 (map r_spend marketing_df)) in
  let c_ctr :=
    Series.mul
      (Series.truediv
         (Series.to_float (map r_clicks marketing_df))
         (Series.to_float
            (Series.replace Z.eqb 0%Z 1%Z (map r_impression marketing_df))))
      100 in
  let c_cpc :=
    Series.truediv (map r_spend marketing_df)
                   (Series.to_float
                      (Series.replace Z.eqb 0%Z 1%Z
                                      (map r_clicks marketing_df))) in
  Ok (assign_marketing marketing_df m_dates c_roas c_ctr c_cpc,
      assign_business business_df b_dates).

(** [load_data()]: the messages passed to [st.warning] and the two frames,
    or the exception that leaves the function. *)
Definition load_data (g : G)
  : result (list string * (list mrow * list brow)) :=
  match read_files with
  | Ok (marketing_df, business_df) =>
      dfs <- convert_and_derive marketing_df business_df ;;
      Ok ([], dfs)
  | Raise (FileNotFoundError m) =>
      let (sample, _) := sample_data g in
      dfs <- convert_and_derive (fst sample) (snd sample) ;;
      Ok ([warning_text (FileNotFoundError m)], dfs)
  | Raise e => Raise e
  end.

End LoadData.

Arguments load_data {G}.
Arguments sample_data {G}.
Arguments column_parser parse_date s : rename.

(* ================================================================== *)
(** ** The filter step of [main] (lines 172-186) *)

(** [df.empty] *)
Definition empty {A} (df : list A) : bool :=
  match df with
  | [] => true
  | _ :: _ => false
  end.

(** [date_range] is what [st.sidebar.date_input] returns for a range
    picker: a tuple of zero, one or two dates. *)
Definition main_filter (marketing_df : list mrow) (business_df : list brow)
           (date_range : list Z) (platforms states : list string)
  : list mrow * list brow :=
  if Nat.eqb (List.length date_range) 2 then
    let start_date := nth 0 date_range 0%Z in
    let end_date := nth 1 date_range 0%Z in
    let filtered_marketing :=
      bool_index marketing_df
        (Series.and
           (Series.and
              (Series.and (Series.ge (map date marketing_df) start_date)
                          (Series.le (map date marketing_df) end_date))
              (Series.isin (map platform marketing_df) platforms))
           (Series.isin (map state marketing_df) states)) in
    let filtered_business :=
      bool_index business_df
        (Series.and (Series.ge (map b_date business_df) start_date)
                    (Series.le (map b_date business_df) end_date)) in
    (filtered_marketing, filtered_business)
  else (marketing_df, business_df).

(* ================================================================== *)
(** ** [calculate_kpis] *)

Record kpis : Type := {
  total_spend : Q;
  total_attributed_revenue : Q;
  overall_roas : fval;
  blended_cac : fval
}.

(** [business_df] comes from [Business.csv] alone or from the sample data:
    its new-customers column is int64, and so is its sum. *)
Definition calculate_kpis (marketing_df : list mrow) (business_df : list brow)
  : kpis :=
  if empty marketing_df then
    {| total_spend := 0; total_attributed_revenue := 0;
       overall_roas := Fin 0; blended_cac := Fin 0 |}
  else
    let total_spend := Series.sum (map spend marketing_df) in
    let total_attributed_revenue :=
      Series.sum (map attributed_revenue marketing_df) in
    let total_new_customers :=
      if negb (empty business_df)
      then Series.sumZ (map new_customers business_df) else 0%Z in
    {| total_spend := total_spend;
       total_attributed_revenue := total_attributed_revenue;
       overall_roas :=
         if Qgt_bool total_spend 0
         then pdiv total_attributed_revenue total_spend else Fin 0;
       blended_cac :=
         if (0 <? total_new_customers)%Z
         then pdiv total_spend (inject_Z total_new_customers) else Fin 0 |}.

(* ================================================================== *)
(** ** [create_channel_chart] and [create_spend_distribution_chart] *)

(** A row of [groupby('platform').agg({... 'sum'}).reset_index()]. *)
Record agg_row : Type := {
  a_platform : string;
  a_spend : Q;
  a_attributed_revenue : Q;
  a_clicks : Z;
  a_impression : Z
}.

(** A row of [stats] as [create_channel_chart] returns it. *)
Record stats_row : Type := {
  s_platform : string;
  s_spend : Q;
  s_attributed_revenue : Q;
  s_clicks : Z;
  s_impression : Z;
  s_roas : fval;
  s_ctr : fval
}.

(** What a plotly figure is built from. *)
Inductive figure : Type :=
| Bar (title : string) (xy : list (string * fval))
| Pie (title : string) (slices : list (string * Q)).

Definition agg_sum (dt : dtype) (g : string * list mrow) : agg_row :=
  {| a_platform := fst g;
     a_spend := Series.sum (map spend (snd g));
     a_attributed_revenue := Series.sum (map attributed_revenue (snd g));
     a_clicks := Series.sum_int dt (map clicks (snd g));
     a_impression := Series.sum_int dt (map impression (snd g)) |}.

(** [stats['roas'] = ...; stats['ctr'] = ...], row by row. *)
Fixpoint assign_stats (stats : list agg_row) (c_roas c_ctr : list fval)
  : list stats_row :=
  match stats, c_roas, c_ctr with
  | a :: stats', x :: c_roas', y :: c_ctr' =>
      {| s_platform := a_platform a; s_spend := a_spend a;
         s_attributed_revenue := a_attributed_revenue a;
         s_clicks := a_clicks a; s_impression := a_impression a;
         s_roas := x; s_ctr := y |} :: assign_stats stats' c_roas' c_ctr'
  | _, _, _ => []
  end.

(** [dt] is the dtype of the numeric columns of [marketing_df].  Boolean
    indexing keeps it, so in [main] it is the dtype of the frame that
    [load_data] returned ([load_dtype]). *)
Definition create_channel_chart (dt : dtype) (marketing_df : list mrow)
  : result (option figure * list stats_row) :=
  if empty marketing_df then Ok (None, [])
  else
    let stats := map (agg_sum dt) (groupby platform marketing_df) in
    c_roas <- truediv_on dt "float division by zero"
                         (map a_attributed_revenue stats)
                         (map a_spend stats) ;;
    c_ratio <- truediv_on dt "division by zero"
                          (Series.to_float (map a_clicks stats))
                          (Series.to_float (map a_impression stats)) ;;
    let c_ctr := Series.mul c_ratio 100 in
    let stats := assign_stats stats c_roas c_ctr in
    Ok (Some (Bar "ROAS by Channel"
                  (map (fun s => (s_platform s, s_roas s)) stats)),
        stats).

Definition create_spend_distribution_chart (marketing_df : list mrow)
  : option figure :=
  if empty marketing_df then None
  else
    let spend_by_platform :=
      map (fun g : string * list mrow =>
             (fst g, Series.sum (map spend (snd g))))
          (groupby platform marketing_df) in
    Some (Pie "Marketing Spend Distribution by Platform" spend_by_platform).

(* ================================================================== *)
(** ** The rest of [main]: default selections and the daily trend *)

(** [s.min()] and [s.max()] of a date column; [None] stands for [NaT], the
    result on a column without rows. *)
Definition series_min (s : list Z) : option Z :=
  match s with
  | [] => None
  | x :: s' => Some (fold_left Z.min s' x)
  end.

Definition series_max (s : list Z) : option Z :=
  match s with
  | [] => None
  | x :: s' => Some (fold_left Z.max s' x)
  end.

(** Line 155: the default of the date picker, the days of the earliest and
    of the latest marketing Timestamp; [None] when the column has no row. *)
Definition default_date_range (marketing_df : list mrow) : option (list Z) :=
  match series_min (map date marketing_df),
        series_max (map date marketing_df) with
  | Some lo, Some hi => Some [date_of lo; date_of hi]
  | _, _ => None
  end.

(** [df.groupby('date')]: as [group_insert], with Timestamps as keys. *)
Fixpoint group_insert_date {A} (k : Z) (r : A) (gs : list (Z * list A))
  : list (Z * list A) :=
  match gs with
  | [] => [(k, [r])]
  | (k', rs) :: gs' =>
      match Z.compare k k' with
      | Eq => (k', rs ++ [r]) :: gs'
      | Lt => (k, [r]) :: gs
      | Gt => (k', rs) :: group_insert_date k r gs'
      end
  end.

Definition groupby_date {A} (key : A -> Z) (df : list A)
  : list (Z * list A) :=
  fold_left (fun gs r => group_insert_date (key r) r gs) df [].

(** A row of [daily_data]. *)
Record daily_row : Type := {
  d_date : Z;
  d_spend : Q;
  d_attributed_revenue : Q
}.

Definition agg_daily (g : Z * list mrow) : daily_row :=
  {| d_date := fst g;
     d_spend := Series.sum (map spend (snd g));
     d_attributed_revenue := Series.sum (map attributed_revenue (snd g)) |}.

(** Lines 219-224: the table behind the trend chart, built only when the
    filtered marketing table has rows. *)
Definition daily_data (filtered_marketing : list mrow)
  : option (list daily_row) :=
  if negb (empty filtered_marketing)
  then Some (map agg_daily (groupby_date date filtered_marketing))
  else None.

(* ================================================================== *)
(** ** Specification vocabulary *)

(** What one row of [marketing_df] must look like after lines 83-89 when it
    comes from the tagged row [r] whose date converted to [d]. *)
Definition derive_row (r : raw_mrow) (d : Z) : mrow :=
  {| date := d; platform := r_platform r; tactic := r_tactic r;
     state := r_state r; impression := r_impression r;
     clicks := r_clicks r; spend := r_spend r;
     attributed_revenue := r_attributed_revenue r;
     roas := pdiv (r_attributed_revenue r)
                  (if Qeq_bool (r_spend r) 0 then 1 else r_spend r);
     ctr := fmul (pdiv (inject_Z (r_clicks r))
                       (inject_Z (if (r_impression r =? 0)%Z then 1%Z
                                  else r_impression r)))
                 100;
     cpc := pdiv (r_spend r)
                 (inject_Z (if (r_clicks r =? 0)%Z then 1%Z else r_clicks r)) |}.

(** Replace-then-divide, read off a finished row. *)
Definition zero_guarded (x : mrow) : Prop :=
  roas x = pdiv (attributed_revenue x)
                (if Qeq_bool (spend x) 0 then 1 else spend x) /\
  ctr x = fmul (pdiv (inject_Z (clicks x))
                     (inject_Z (if (impression x =? 0)%Z then 1%Z
                                else impression x)))
               100 /\
  cpc x = pdiv (spend x)
               (inject_Z (if (clicks x =? 0)%Z then 1%Z else clicks x)).

(** The sum of a list of rationals and of a list of integers, as numbers. *)
Definition qsum (l : list Q) : Q := fold_right Qplus 0 l.
Definition zsum (l : list Z) : Z := fold_right Z.add 0%Z l.

(** The sum of an integer column of dtype [dt], as a number. *)
Definition int_total (dt : dtype) (l : list Z) : Z :=
  match dt with
  | Numeric => wrap64 (zsum l)
  | Object => zsum l
  end.

(** The exception, if any, that one read ended with. *)
Definition raised {A} (c : result A) : option exn :=
  match c with
  | Ok _ => None
  | Raise e => Some e
  end.

(** The outcomes of the four reads in the order [load_data] makes them, and
    the first exception among them. *)
Definition read_outcomes (read_marketing_csv : string -> result (list csv_mrow))
           (read_business_csv : string -> result (list raw_brow))
  : list (option exn) :=
  [raised (read_marketing_csv "Facebook.csv");
   raised (read_marketing_csv "Google.csv");
   raised (read_marketing_csv "TikTok.csv");
   raised (read_business_csv "Business.csv")].

Fixpoint first_exn (l : list (option exn)) : option exn :=
  match l with
  | [] => None
  | Some e :: _ => Some e
  | None :: l' => first_exn l'
  end.

(** The row predicates that the masks of [main] compute. *)
Definition keep_marketing (start_date end_date : Z)
           (platforms states : list string) (r : mrow) : bool :=
  (start_date <=? date r)%Z && (date r <=? end_date)%Z
  && existsb (String.eqb (platform r)) platforms
  && existsb (String.eqb (state r)) states.

Definition keep_business (start_date end_date : Z) (r : brow) : bool :=
  (start_date <=? b_date r)%Z && (b_date r <=? end_date)%Z.

(** The rows of one channel, in table order. *)
Definition rows_of (p : string) (df : list mrow) : list mrow :=
  filter (fun r => String.eqb (platform r) p) df.

(** The slices of a pie chart. *)
Definition slices_of (f : option figure) : list (string * Q) :=
  match f with
  | Some (Pie _ s) => s
  | _ => []
  end.

(** The order of the group keys: strings compared character by character. *)
Abbreviation key_lt := String_as_OT.lt.

(** [gs] are the groups of [l] by [key]: keys ascending, every group the
    non-empty list of the rows of [l] with its key, every row in a group. *)
Definition groups_of {A} (key : A -> string) (l : list A)
           (gs : list (string * list A)) : Prop :=
  StronglySorted key_lt (map fst gs) /\
  (forall k rs, In (k, rs) gs ->
                rs = filter (fun r => String.eqb (key r) k) l /\ rs <> []) /\
  (forall r, In r l -> In (key r) (map fst gs)).

(** The row of [stats] that the aggregated row [a] becomes. *)
Definition stats_of_agg (a : agg_row) : stats_row :=
  {| s_platform := a_platform a; s_spend := a_spend a;
     s_attributed_revenue := a_attributed_revenue a;
     s_clicks := a_clicks a; s_impression := a_impression a;
     s_roas := pdiv (a_attributed_revenue a) (a_spend a);
     s_ctr := fmul (pdiv (inject_Z (a_clicks a)) (inject_Z (a_impression a)))
                   100 |}.

(** [groups_of] for any ordered key type: [klt] orders the keys and [keqb]
    decides their equality. *)
Definition keyed_groups_of {K A} (klt : K -> K -> Prop)
           (keqb : K -> K -> bool) (key : A -> K) (l : list A)
           (gs : list (K * list A)) : Prop :=
  StronglySorted klt (map fst gs) /\
  (forall k rs, In (k, rs) gs ->
                rs = filter (fun r => keqb (key r) k) l /\ rs <> []) /\
  (forall r, In r l -> In (key r) (map fst gs)).

(** The rows of one day, in table order. *)
Definition rows_on (d : Z) (df : list mrow) : list mrow :=
  filter (fun r => Z.eqb (date r) d) df.

(** The cells of a CSV marketing row that [load_data] carries over. *)
Definition csv_cells (c : csv_mrow) : string * string * Z * Z * Q * Q :=
  (c_tactic c, c_state c, c_impression c, c_clicks c, c_spend c,
   c_attributed_revenue c).

Definition row_cells (x : mrow) : string * string * Z * Z * Q * Q :=
  (tactic x, state x, impression x, clicks x, spend x, attributed_revenue x).

(** Test data. *)
Module Fixtures.

Definition randint (lo hi : Z) (g : nat) : Z * nat := (lo, S g).
Definition uniform (lo hi : Q) (g : nat) : Q * nat := (lo, S g).
Definition choice (l : list string) (g : nat) : string * nat :=
  (hd "" l, S g).

(** ISO dates parse in a column that starts with an ISO date; a text such
    as 01/06/2025 does not fit that format. *)
Definition iso_date (s : string) : option Z :=
  if String.eqb s "2025-06-01" then Some (Timestamp 2025 6 1)
  else if String.eqb s "2025-06-02" then Some (Timestamp 2025 6 2)
  else None.

Definition parse_date (t0 s : string) : option Z :=
  match iso_date t0 with
  | Some _ => iso_date s
  | None => None
  end.

Definition csv_row (d : string) (i c : Z) (s a : Q) : csv_mrow :=
  {| c_date := DStr d; c_tactic := "ASC"; c_state := "NY";
     c_impression := i; c_clicks := c; c_spend := s;
     c_attributed_revenue := a |}.

Definition read_marketing_csv (file : string) : result (list csv_mrow) :=
  if String.eqb file "Facebook.csv"
  then Ok [csv_row "2025-06-01" 0 3 0 5; csv_row "2025-06-02" 1000 0 7 21]
  else Ok [].

Definition read_business_csv (file : string) : result (list raw_brow) :=
  Ok [{| rb_date := DStr "2025-06-01"; rb_orders := 250%Z;
         rb_new_customers := 50%Z; rb_total_revenue := 30000;
         rb_gross_profit := 15000 |}].

(** [Facebook.csv] exists but is not a CSV table; [Google.csv] is absent. *)
Definition read_unparsable (file : string) : result (list csv_mrow) :=
  if String.eqb file "Facebook.csv"
  then Raise (ParserError "Error tokenizing data")
  else if String.eqb file "Google.csv"
  then Raise (FileNotFoundError "No such file or directory: 'Google.csv'")
  else Ok [].

(** [Google.csv] is absent, every other file is fine. *)
Definition read_missing (file : string) : result (list csv_mrow) :=
  if String.eqb file "Google.csv"
  then Raise (FileNotFoundError "No such file or directory: 'Google.csv'")
  else read_marketing_csv file.

(** [Facebook.csv] and [Google.csv] hold one row each, the Google row with
    no spend and no impressions; [TikTok.csv] holds its header line only. *)
Definition read_header_only (file : string) : result (list csv_mrow) :=
  if String.eqb file "Facebook.csv"
  then Ok [csv_row "2025-06-01" 1000 10 100 300]
  else if String.eqb file "Google.csv"
  then Ok [csv_row "2025-06-01" 0 0 0 0]
  else Ok [].

Definition row (d : Z) (p st : string) (i c : Z) (s a : Q) : mrow :=
  derive_row {| r_date := DTs d; r_platform := p; r_tactic := "ASC";
                r_state := st; r_impression := i; r_clicks := c;
                r_spend := s; r_attributed_revenue := a |} d.

Definition business_row (d n : Z) : brow :=
  {| b_date := d; orders := 250%Z; new_customers := n;
     total_revenue := 30000; gross_profit := 15000 |}.

End Fixtures.

(* ================================================================== *)
(** ** Arithmetic of [pdiv] and [fmul] *)

Lemma pdiv_nonzero (a b : Q) : ~ b == 0 -> pdiv a b = Fin (a / b).
Proof.
  intros Hb. unfold pdiv.
  destruct (Qeq_bool b 0) eqn:E; [|reflexivity].
  apply Qeq_bool_iff in E. contradiction.
Qed.

Lemma pdiv_zero_not_finite (a b : Q) : b == 0 -> is_finite (pdiv a b) = false.
Proof.
  intros Hb. unfold pdiv.
  rewrite (Qeq_eq_bool _ _ Hb).
  destruct (Qeq_bool a 0); [reflexivity|].
  destruct (Qle_bool a 0); reflexivity.
Qed.

Lemma pdiv_one (a : Q) : pdiv a 1 = Fin (a / 1).
Proof. apply pdiv_nonzero. discriminate. Qed.

Lemma fmul_not_finite (x : fval) (k : Q) :
  is_finite x = false -> is_finite (fmul x k) = false.
Proof.
  destruct x; simpl; intros H; try discriminate; try reflexivity;
    destruct (Qeq_bool k 0); try reflexivity;
    destruct (Qle_bool k 0); reflexivity.
Qed.

Lemma guard_Q_nonzero (d : Q) : ~ (if Qeq_bool d 0 then 1 else d) == 0.
Proof.
  destruct (Qeq_bool d 0) eqn:E.
  - discriminate.
  - apply Qeq_bool_neq. exact E.
Qed.

Lemma guard_Z_nonzero (d : Z) :
  ~ inject_Z (if (d =? 0)%Z then 1%Z else d) == 0.
Proof.
  destruct (d =? 0)%Z eqn:E.
  - discriminate.
  - apply Z.eqb_neq in E. unfold Qeq, inject_Z. simpl. lia.
Qed.

Lemma feq_Fin_zero (q : Q) : feq (Fin q) (Fin 0) <-> q == 0.
Proof. reflexivity. Qed.

(* ================================================================== *)
(** ** The derived columns of [load_data] *)

Section Derived.

Variable parse_date : string -> string -> option Z.

Lemma for_each_length {A B} (f : A -> result B) (l : list A) (l' : list B) :
  for_each f l = Ok l' -> List.length l' = List.length l.
Proof.
  revert l'. induction l as [|x l IH]; simpl; intros l' H.
  - injection H as <-. reflexivity.
  - destruct (f x) as [y|e]; simpl in H; [|discriminate].
    destruct (for_each f l) as [ys|e]; simpl in H; [|discriminate].
    injection H as <-. simpl. f_equal. apply IH. reflexivity.
Qed.

Lemma to_datetime_length (s : list cell_date) (l : list Z) :
  to_datetime parse_date s = Ok l -> List.length l = List.length s.
Proof. apply for_each_length. Qed.

(** The four column assignments amount to [derive_row] on every row. *)
Lemma assign_marketing_derive (df : list raw_mrow) :
  forall dates : list Z,
    List.length dates = List.length df ->
    assign_marketing df dates
      (Series.truediv (map r_attributed_revenue df)
                      (Series.replace Qeq_bool 0 1 (map r_spend df)))
      (Series.mul
         (Series.truediv
            (Series.to_float (map r_clicks df))
            (Series.to_float
               (Series.replace Z.eqb 0%Z 1%Z (map r_impression df))))
         100)
      (Series.truediv (map r_spend df)
                      (Series.to_float
                         (Series.replace Z.eqb 0%Z 1%Z (map r_clicks df))))
    = map (fun rd => derive_row (fst rd) (snd rd)) (combine df dates).
Proof.
  induction df as [|r df IH]; intros [|d dates] Hlen; simpl in Hlen;
    try discriminate; try reflexivity.
  injection Hlen as Hlen.
  simpl. f_equal. apply IH. exact Hlen.
Qed.

Lemma convert_and_derive_rows (m : list raw_mrow) (b : list raw_brow)
      (m' : list mrow) (b' : list brow) :
  convert_and_derive parse_date m b = Ok (m', b') ->
  exists dates, List.length dates = List.length m /\
                to_datetime parse_date (map r_date m) = Ok dates /\
                m' = map (fun rd => derive_row (fst rd) (snd rd))
                         (combine m dates).
Proof.
  unfold convert_and_derive. intros H.
  destruct (to_datetime parse_date (map r_date m)) as [dates|e] eqn:Em;
    simpl in H; [|discriminate].
  destruct (to_datetime parse_date (map rb_date b)) as [bdates|e] eqn:Eb;
    simpl in H; [|discriminate].
  injection H as Hm Hb.
  pose proof (to_datetime_length _ _ Em) as Hlen.
  rewrite length_map in Hlen.
  exists dates. split; [exact Hlen|]. split; [reflexivity|].
  rewrite <- Hm. apply assign_marketing_derive. exact Hlen.
Qed.

Lemma derive_row_guarded (r : raw_mrow) (d : Z) : zero_guarded (derive_row r d).
Proof. repeat split. Qed.

Lemma convert_and_derive_guarded (m : list raw_mrow) (b : list raw_brow)
      (m' : list mrow) (b' : list brow) :
  convert_and_derive parse_date m b = Ok (m', b') ->
  Forall zero_guarded m'.
Proof.
  intros H. destruct (convert_and_derive_rows _ _ _ _ H) as (dates & _ & _ & ->).
  apply Forall_forall. intros x Hx.
  apply in_map_iff in Hx. destruct Hx as ([r d] & <- & _).
  apply derive_row_guarded.
Qed.

End Derived.

(** Every row that [load_data] returns went through replace-then-divide. *)
Lemma load_data_guarded {G} randint uniform choice rm rb parse_date (g : G)
      (w : list string) (m : list mrow) (b : list brow) :
  load_data randint uniform choice rm rb parse_date g = Ok (w, (m, b)) ->
  Forall zero_guarded m.
Proof.
  unfold load_data. intros H.
  destruct (read_files rm rb) as [[mdf bdf]|e].
  - destruct (convert_and_derive parse_date mdf bdf) as [[m0 b0]|e] eqn:E;
      simpl in H; [|discriminate].
    injection H as _ <- _. eapply convert_and_derive_guarded; eauto.
  - destruct e as [msg|msg|msg|msg]; try discriminate.
    destruct (sample_data randint uniform choice g) as [sample g'].
    destruct (convert_and_derive parse_date (fst sample) (snd sample))
      as [[m0 b0]|e] eqn:E; simpl in H; [|discriminate].
    injection H as _ <- _. eapply convert_and_derive_guarded; eauto.
Qed.

(** What the guard gives at a zero denominator. *)
Lemma guarded_zero_spend (x : mrow) :
  zero_guarded x -> spend x == 0 -> roas x = Fin (attributed_revenue x / 1).
Proof.
  intros (Hr & _ & _) Hz. rewrite Hr.
  rewrite (Qeq_eq_bool _ _ Hz). apply pdiv_one.
Qed.

Lemma guarded_zero_impression (x : mrow) :
  zero_guarded x -> impression x = 0%Z ->
  ctr x = Fin (inject_Z (clicks x) / 1 * 100).
Proof.
  intros (_ & Hc & _) Hz. rewrite Hc, Hz.
  change (inject_Z (if (0 =? 0)%Z then 1%Z else 0%Z)) with 1.
  rewrite pdiv_one. reflexivity.
Qed.

Lemma guarded_zero_clicks (x : mrow) :
  zero_guarded x -> clicks x = 0%Z -> cpc x = Fin (spend x / 1).
Proof.
  intros (_ & _ & Hc) Hz. rewrite Hc, Hz.
  change (inject_Z (if (0 =? 0)%Z then 1%Z else 0%Z)) with 1.
  apply pdiv_one.
Qed.

Lemma guarded_finite (x : mrow) :
  zero_guarded x ->
  is_finite (roas x) = true /\ is_finite (ctr x) = true /\
  is_finite (cpc x) = true.
Proof.
  intros (Hr & Hc & Hp). rewrite Hr, Hc, Hp.
  rewrite (pdiv_nonzero _ _ (guard_Q_nonzero (spend x))).
  rewrite (pdiv_nonzero _ _ (guard_Z_nonzero (impression x))).
  rewrite (pdiv_nonzero _ _ (guard_Z_nonzero (clicks x))).
  repeat split.
Qed.

(** With the guard in place the three divisions are ordinary quotients. *)
Lemma guarded_quotients (x : mrow) :
  zero_guarded x ->
  roas x = Fin (attributed_revenue x
                / (if Qeq_bool (spend x) 0 then 1 else spend x)) /\
  ctr x = Fin (inject_Z (clicks x)
               / inject_Z (if (impression x =? 0)%Z then 1%Z else impression x)
               * 100) /\
  cpc x = Fin (spend x
               / inject_Z (if (clicks x =? 0)%Z then 1%Z else clicks x)).
Proof.
  intros (Hr & Hc & Hp). rewrite Hr, Hc, Hp.
  rewrite (pdiv_nonzero _ _ (guard_Q_nonzero (spend x))).
  rewrite (pdiv_nonzero _ _ (guard_Z_nonzero (impression x))).
  rewrite (pdiv_nonzero _ _ (guard_Z_nonzero (clicks x))).
  repeat split.
Qed.

(** C1 (as amended).  Every row returned by [load_data] has finite [roas],
    [ctr] and [cpc]; where the denominator is 0 the derived value is the
    numerator itself ([attributed_revenue], [100 * clicks], [spend]), hence
    0 when that numerator is 0 as well. *)
Theorem derived_defined_at_zero_denominator
        {G} randint uniform choice rm rb parse_date (g : G)
        (w : list string) (m : list mrow) (b : list brow) (x : mrow) :
  load_data randint uniform choice rm rb parse_date g = Ok (w, (m, b)) ->
  In x m ->
  (is_finite (roas x) = true /\ is_finite (ctr x) = true /\
   is_finite (cpc x) = true) /\
  (spend x == 0 ->
   feq (roas x) (Fin (attributed_revenue x)) /\
   (attributed_revenue x == 0 -> feq (roas x) (Fin 0))) /\
  (impression x = 0%Z ->
   feq (ctr x) (Fin (100 * inject_Z (clicks x))) /\
   (clicks x = 0%Z -> feq (ctr x) (Fin 0))) /\
  (clicks x = 0%Z ->
   feq (cpc x) (Fin (spend x)) /\
   (spend x == 0 -> feq (cpc x) (Fin 0))).
Proof.
  intros Hload Hx.
  pose proof (load_data_guarded _ _ _ _ _ _ _ _ _ _ Hload) as Hall.
  rewrite Forall_forall in Hall. specialize (Hall x Hx).
  split; [apply guarded_finite; exact Hall|].
  split; [|split].
  - intros Hz. rewrite (guarded_zero_spend x Hall Hz). simpl. split.
    + field.
    + intros Ha. rewrite Ha. reflexivity.
  - intros Hz. rewrite (guarded_zero_impression x Hall Hz). simpl. split.
    + field.
    + intros Hc. rewrite Hc. reflexivity.
  - intros Hz. rewrite (guarded_zero_clicks x Hall Hz). simpl. split.
    + field.
    + intros Hs. rewrite Hs. reflexivity.
Qed.

Lemma derived_defined_at_zero_denominator_witness :
  let x := Fixtures.row (Timestamp 2025 6 1) "Facebook" "NY" 0 3 0 5 in
  let y := Fixtures.row (Timestamp 2025 6 2) "Facebook" "NY" 1000 0 7 21 in
  load_data Fixtures.randint Fixtures.uniform Fixtures.choice
            Fixtures.read_marketing_csv Fixtures.read_business_csv
            Fixtures.parse_date 0%nat
  = Ok ([], ([x; y], [Fixtures.business_row (Timestamp 2025 6 1) 50])) /\
  In x [x; y] /\
  (is_finite (roas x) = true /\ is_finite (ctr x) = true /\
   is_finite (cpc x) = true) /\
  (spend x == 0 ->
   feq (roas x) (Fin (attributed_revenue x)) /\
   (attributed_revenue x == 0 -> feq (roas x) (Fin 0))) /\
  (impression x = 0%Z ->
   feq (ctr x) (Fin (100 * inject_Z (clicks x))) /\
   (clicks x = 0%Z -> feq (ctr x) (Fin 0))) /\
  (clicks x = 0%Z ->
   feq (cpc x) (Fin (spend x)) /\
   (spend x == 0 -> feq (cpc x) (Fin 0))).
Proof.
  intros x y.
  assert (Hload :
    load_data Fixtures.randint Fixtures.uniform Fixtures.choice
              Fixtures.read_marketing_csv Fixtures.read_business_csv
              Fixtures.parse_date 0%nat
    = Ok ([], ([x; y], [Fixtures.business_row (Timestamp 2025 6 1) 50])))
    by (vm_compute; reflexivity).
  assert (Hin : In x [x; y]) by (simpl; left; reflexivity).
  split; [exact Hload|]. split; [exact Hin|].
  exact (derived_defined_at_zero_denominator _ _ _ _ _ _ _ _ _ _ x Hload Hin).
Defined.

(** C1 (as stated) fails: a row with spend 0 and attributed revenue 5 gets
    roas 5, a row with 0 impressions and 3 clicks gets ctr 300, and a row
    with 0 clicks and spend 7 gets cpc 7. *)
Lemma derived_zero_at_zero_denominator_counterexample :
  exists w x y b,
    load_data Fixtures.randint Fixtures.uniform Fixtures.choice
              Fixtures.read_marketing_csv Fixtures.read_business_csv
              Fixtures.parse_date 0%nat
    = Ok (w, ([x; y], b)) /\
    (spend x == 0 /\ feq (roas x) (Fin 5) /\ ~ feq (roas x) (Fin 0)) /\
    (impression x = 0%Z /\ feq (ctr x) (Fin 300) /\ ~ feq (ctr x) (Fin 0)) /\
    (clicks y = 0%Z /\ feq (cpc y) (Fin 7) /\ ~ feq (cpc y) (Fin 0)).
Proof.
  exists [],
    (Fixtures.row (Timestamp 2025 6 1) "Facebook" "NY" 0 3 0 5),
    (Fixtures.row (Timestamp 2025 6 2) "Facebook" "NY" 1000 0 7 21),
    [Fixtures.business_row (Timestamp 2025 6 1) 50].
  split; [vm_compute; reflexivity|].
  repeat split; try reflexivity; vm_compute; discriminate.
Qed.

(** C2.  Every row returned by [load_data] has its three derived columns
    computed by replacing a zero denominator with 1 and then dividing; so at
    a zero denominator the value is the numerator itself (times 100 for
    ctr), and it is 0 exactly when the numerator is 0 too. *)
Theorem derived_replace_then_divide
        {G} randint uniform choice rm rb parse_date (g : G)
        (w : list string) (m : list mrow) (b : list brow) (x : mrow) :
  load_data randint uniform choice rm rb parse_date g = Ok (w, (m, b)) ->
  In x m ->
  (roas x = Fin (attributed_revenue x
                 / (if Qeq_bool (spend x) 0 then 1 else spend x)) /\
   ctr x = Fin (inject_Z (clicks x)
                / inject_Z (if (impression x =? 0)%Z then 1%Z
                            else impression x)
                * 100) /\
   cpc x = Fin (spend x
                / inject_Z (if (clicks x =? 0)%Z then 1%Z else clicks x))) /\
  (spend x == 0 ->
   feq (roas x) (Fin (attributed_revenue x)) /\
   (feq (roas x) (Fin 0) <-> attributed_revenue x == 0)) /\
  (impression x = 0%Z ->
   feq (ctr x) (Fin (100 * inject_Z (clicks x))) /\
   (feq (ctr x) (Fin 0) <-> clicks x = 0%Z)) /\
  (clicks x = 0%Z ->
   feq (cpc x) (Fin (spend x)) /\
   (feq (cpc x) (Fin 0) <-> spend x == 0)).
Proof.
  intros Hload Hx.
  pose proof (load_data_guarded _ _ _ _ _ _ _ _ _ _ Hload) as Hall.
  rewrite Forall_forall in Hall. specialize (Hall x Hx).
  split; [exact (guarded_quotients x Hall)|].
  split; [|split].
  - intros Hz. rewrite (guarded_zero_spend x Hall Hz). simpl. split.
    + field.
    + split; intros H.
      * rewrite <- H. field.
      * rewrite H. reflexivity.
  - intros Hz. rewrite (guarded_zero_impression x Hall Hz). simpl. split.
    + field.
    + split; intros H.
      * assert (Hq : inject_Z (clicks x) == 0).
        { setoid_replace (inject_Z (clicks x))
            with ((inject_Z (clicks x) / 1 * 100) / 100) by field.
          rewrite H. reflexivity. }
        unfold Qeq, inject_Z in Hq. simpl in Hq. lia.
      * rewrite H. reflexivity.
  - intros Hz. rewrite (guarded_zero_clicks x Hall Hz). simpl. split.
    + field.
    + split; intros H.
      * rewrite <- H. field.
      * rewrite H. reflexivity.
Qed.

Lemma derived_replace_then_divide_witness :
  let x := Fixtures.row (Timestamp 2025 6 1) "Facebook" "NY" 0 3 0 5 in
  let y := Fixtures.row (Timestamp 2025 6 2) "Facebook" "NY" 1000 0 7 21 in
  (load_data Fixtures.randint Fixtures.uniform Fixtures.choice
             Fixtures.read_marketing_csv Fixtures.read_business_csv
             Fixtures.parse_date 0%nat
   = Ok ([], ([x; y], [Fixtures.business_row (Timestamp 2025 6 1) 50])) /\
   In y [x; y]) /\
  (roas y = Fin (attributed_revenue y
                 / (if Qeq_bool (spend y) 0 then 1 else spend y)) /\
   ctr y = Fin (inject_Z (clicks y)
                / inject_Z (if (impression y =? 0)%Z then 1%Z
                            else impression y)
                * 100) /\
   cpc y = Fin (spend y
                / inject_Z (if (clicks y =? 0)%Z then 1%Z else clicks y))) /\
  (roas y = Fin (21 / 7) /\ ctr y = Fin (0 / 1000 * 100) /\
   cpc y = Fin (7 / 1)) /\
  (spend y == 0 ->
   feq (roas y) (Fin (attributed_revenue y)) /\
   (feq (roas y) (Fin 0) <-> attributed_revenue y == 0)) /\
  (impression y = 0%Z ->
   feq (ctr y) (Fin (100 * inject_Z (clicks y))) /\
   (feq (ctr y) (Fin 0) <-> clicks y = 0%Z)) /\
  (clicks y = 0%Z ->
   feq (cpc y) (Fin (spend y)) /\
   (feq (cpc y) (Fin 0) <-> spend y == 0)).
Proof.
  intros x y.
  assert (Hload :
    load_data Fixtures.randint Fixtures.uniform Fixtures.choice
              Fixtures.read_marketing_csv Fixtures.read_business_csv
              Fixtures.parse_date 0%nat
    = Ok ([], ([x; y], [Fixtures.business_row (Timestamp 2025 6 1) 50])))
    by (vm_compute; reflexivity).
  assert (Hin : In y [x; y]) by (simpl; right; left; reflexivity).
  split; [split; [exact Hload | exact Hin]|].
  destruct (derived_replace_then_divide _ _ _ _ _ _ _ _ _ _ y Hload Hin)
    as (Hq & Hs & Hi & Hc).
  split; [exact Hq|]. split; [|split; [exact Hs|split; [exact Hi|exact Hc]]].
  destruct Hq as (Hr & Hct & Hcp).
  split; [rewrite Hr; reflexivity|].
  split; [rewrite Hct; reflexivity|rewrite Hcp; reflexivity].
Defined.

(* ================================================================== *)
(** ** The fallback of [load_data] *)

Arguments gfor {G A B}.
Arguments gbind {G A B}.
Arguments gret {G A}.
Arguments sample_marketing_row {G}.
Arguments sample_business_row {G}.

Section Fallback.

Variable G : Type.
Variable randint : Z -> Z -> G -> Z * G.
Variable uniform : Q -> Q -> G -> Q * G.
Variable choice : list string -> G -> string * G.
Variable read_marketing_csv : string -> result (list csv_mrow).
Variable read_business_csv : string -> result (list raw_brow).
Variable parse_date : string -> string -> option Z.

(** The [try] body ends with the first exception of the four reads. *)
Lemma read_files_first_exn (e : exn) :
  first_exn (read_outcomes read_marketing_csv read_business_csv) = Some e ->
  read_files read_marketing_csv read_business_csv = Raise e.
Proof.
  unfold read_outcomes, read_files, sources. simpl.
  destruct (read_marketing_csv "Facebook.csv") as [f|e1]; simpl;
    [|intros H; injection H as ->; reflexivity].
  destruct (read_marketing_csv "Google.csv") as [g|e2]; simpl;
    [|intros H; injection H as ->; reflexivity].
  destruct (read_marketing_csv "TikTok.csv") as [t|e3]; simpl;
    [|intros H; injection H as ->; reflexivity].
  destruct (read_business_csv "Business.csv") as [b|e4]; simpl;
    [discriminate|intros H; injection H as ->; reflexivity].
Qed.

(** A column of the rows drawn by a loop, when the column does not depend
    on the draws. *)
Lemma gfor_map {A B C} (f : A -> Rand G B) (h : B -> C) (k : A -> C) :
  (forall x g, h (fst (f x g)) = k x) ->
  forall l g, map h (fst (gfor f l g)) = map k l.
Proof.
  intros Hf. induction l as [|x l IH]; intros g; simpl; [reflexivity|].
  unfold gbind.
  pose proof (Hf x g) as Hx. destruct (f x g) as [y g1].
  pose proof (IH g1) as Hl. destruct (gfor f l g1) as [ys g2].
  simpl in *. rewrite Hx, Hl. reflexivity.
Qed.

Ltac run_draws :=
  repeat match goal with
         | |- context [let (_, _) := ?c in _] => destruct c
         end.

Lemma sample_marketing_row_key (d : Z) (p : string) (g : G) :
  let r := fst (sample_marketing_row randint uniform choice d p g) in
  r_date r = DTs d /\ r_platform r = p.
Proof.
  unfold sample_marketing_row, gbind, gret. run_draws. simpl. split; reflexivity.
Qed.

Lemma sample_business_row_date (d : Z) (g : G) :
  rb_date (fst (sample_business_row randint uniform d g)) = DTs d.
Proof.
  unfold sample_business_row, gbind, gret. run_draws. reflexivity.
Qed.

(** Dates and platforms of the sample data, whatever the generator. *)
Lemma sample_data_keys (g : G) :
  let dates := date_range_D (Timestamp 2025 5 16) 120 in
  let sample := fst (sample_data randint uniform choice g) in
  map (fun r => (r_date r, r_platform r)) (fst sample)
  = flat_map (fun d => map (fun p => (DTs d, p)) sample_platforms) dates /\
  map rb_date (snd sample) = map DTs dates.
Proof.
  intros dates sample. subst sample. unfold sample_data.
  fold dates. unfold gbind, gret.
  pose proof (gfor_map
                (fun d => gfor (sample_marketing_row randint uniform choice d)
                               sample_platforms)
                (map (fun r => (r_date r, r_platform r)))
                (fun d => map (fun p => (DTs d, p)) sample_platforms)) as Hm.
  assert (Hinner : forall (x : Z) (g0 : G),
             map (fun r => (r_date r, r_platform r))
                 (fst (gfor (sample_marketing_row randint uniform choice x)
                            sample_platforms g0))
             = map (fun p => (DTs x, p)) sample_platforms).
  { intros x g0. apply gfor_map. intros p g1.
    destruct (sample_marketing_row_key x p g1) as [-> ->]. reflexivity. }
  specialize (Hm Hinner dates g).
  destruct (gfor _ dates g) as [per_day g1]. simpl in Hm.
  pose proof (gfor_map (sample_business_row randint uniform) rb_date DTs
                       (sample_business_row_date) dates g1) as Hb.
  destruct (gfor _ dates g1) as [business_data g2]. simpl in Hb. simpl fst.
  split; [|exact Hb].
  simpl fst. rewrite concat_map, Hm, flat_map_concat_map. reflexivity.
Qed.

Lemma to_datetime_DTs (l : list Z) :
  to_datetime parse_date (map DTs l) = Ok l.
Proof.
  unfold to_datetime.
  generalize (column_parser parse_date (map DTs l)). intros parse.
  induction l as [|d l IH]; simpl; [reflexivity|].
  rewrite IH. reflexivity.
Qed.

Lemma combine_keys (m : list raw_mrow) :
  forall E : list (Z * string),
    map (fun r => (r_date r, r_platform r)) m
    = map (fun dp => (DTs (fst dp), snd dp)) E ->
    map (fun x => (date x, platform x))
        (map (fun rd => derive_row (fst rd) (snd rd))
             (combine m (map fst E))) = E.
Proof.
  induction m as [|r m IH]; intros [|[d p] E] H; simpl in H;
    try discriminate; [reflexivity|].
  injection H as Hd Hp Ht. simpl. rewrite Hp, (IH E Ht). reflexivity.
Qed.

Lemma assign_business_dates (df : list raw_brow) :
  forall dates, List.length dates = List.length df ->
                map b_date (assign_business df dates) = dates.
Proof.
  induction df as [|r df IH]; intros [|d dates] H; simpl in H;
    try discriminate; [reflexivity|].
  injection H as H. simpl. rewrite (IH dates H). reflexivity.
Qed.

(** The sample data always converts: its dates are Timestamps already. *)
Lemma convert_sample (g : G) :
  let dates := date_range_D (Timestamp 2025 5 16) 120 in
  let sample := fst (sample_data randint uniform choice g) in
  exists m b,
    convert_and_derive parse_date (fst sample) (snd sample) = Ok (m, b) /\
    map (fun x => (date x, platform x)) m
    = flat_map (fun d => map (pair d) sample_platforms) dates /\
    map b_date b = dates.
Proof.
  intros dates sample.
  destruct (sample_data_keys g) as [Hm Hb]. fold dates sample in Hm, Hb.
  set (E := flat_map (fun d => map (pair d) sample_platforms) dates).
  assert (HmE : map (fun r => (r_date r, r_platform r)) (fst sample)
                = map (fun dp => (DTs (fst dp), snd dp)) E).
  { rewrite Hm. unfold E. rewrite !flat_map_concat_map, concat_map, map_map.
    f_equal; try (apply map_ext; intros d; rewrite map_map); reflexivity. }
  assert (Hdates : map r_date (fst sample) = map DTs (map fst E)).
  { rewrite map_map.
    change (fun x : Z * string => DTs (fst x))
      with (fun x : Z * string =>
              fst ((fun dp : Z * string => (DTs (fst dp), snd dp)) x)).
    rewrite <- (map_map (fun dp : Z * string => (DTs (fst dp), snd dp)) fst).
    rewrite <- HmE, map_map. reflexivity. }
  assert (Hlen : List.length (map fst E) = List.length (fst sample)).
  { rewrite <- (length_map r_date (fst sample)), Hdates, length_map.
    reflexivity. }
  exists (map (fun rd => derive_row (fst rd) (snd rd))
              (combine (fst sample) (map fst E))),
    (assign_business (snd sample) dates).
  split; [|split].
  - unfold convert_and_derive.
    rewrite Hdates, Hb, !to_datetime_DTs. unfold rbind.
    f_equal. f_equal. apply assign_marketing_derive. exact Hlen.
  - apply combine_keys. exact HmE.
  - apply assign_business_dates.
    rewrite <- (length_map rb_date (snd sample)), Hb, length_map. reflexivity.
Qed.

End Fallback.

(** C3 (as amended).  When the first of the four reads to fail raises
    [FileNotFoundError], [load_data] returns normally with exactly one
    warning and the full sample data: 120 consecutive days from 2025-05-16,
    each with the three platforms in order, and one business row per day.
    When it fails in any other way, that exception leaves [load_data]. *)
Theorem load_data_fallback_on_missing_file
        {G} randint uniform choice rm rb parse_date (g : G) (e : exn) :
  first_exn (read_outcomes rm rb) = Some e ->
  match e with
  | FileNotFoundError _ =>
      exists m b,
        load_data randint uniform choice rm rb parse_date g
        = Ok ([warning_text e], (m, b)) /\
        map (fun x => (date x, platform x)) m
        = flat_map (fun d => map (pair d) ["Facebook"; "Google"; "TikTok"])
                   (date_range_D (Timestamp 2025 5 16) 120) /\
        map b_date b = date_range_D (Timestamp 2025 5 16) 120 /\
        List.length m = 360%nat /\ List.length b = 120%nat
  | _ => load_data randint uniform choice rm rb parse_date g = Raise e
  end.
Proof.
  intros Hfirst. apply read_files_first_exn in Hfirst.
  destruct e as [msg|msg|msg|msg];
    try (unfold load_data; rewrite Hfirst; reflexivity).
  destruct (convert_sample G randint uniform choice parse_date g)
    as (m & b & Hconv & Hm & Hb).
  exists m, b. split; [|split; [exact Hm|split; [exact Hb|]]].
  - unfold load_data. rewrite Hfirst.
    destruct (sample_data randint uniform choice g) as [sample g'].
    simpl fst in Hconv. rewrite Hconv. reflexivity.
  - split.
    + rewrite <- (length_map (fun x => (date x, platform x)) m), Hm.
      reflexivity.
    + rewrite <- (length_map b_date b), Hb. reflexivity.
Qed.

Lemma load_data_fallback_on_missing_file_witness :
  first_exn (read_outcomes Fixtures.read_missing Fixtures.read_business_csv)
  = Some (FileNotFoundError "No such file or directory: 'Google.csv'") /\
  exists m b,
    load_data Fixtures.randint Fixtures.uniform Fixtures.choice
              Fixtures.read_missing Fixtures.read_business_csv
              Fixtures.parse_date 0%nat
    = Ok ([warning_text
             (FileNotFoundError "No such file or directory: 'Google.csv'")],
          (m, b)) /\
    map (fun x => (date x, platform x)) m
    = flat_map (fun d => map (pair d) ["Facebook"; "Google"; "TikTok"])
               (date_range_D (Timestamp 2025 5 16) 120) /\
    map b_date b = date_range_D (Timestamp 2025 5 16) 120 /\
    List.length m = 360%nat /\ List.length b = 120%nat.
Proof.
  split; [reflexivity|].
  exact (load_data_fallback_on_missing_file
           Fixtures.randint Fixtures.uniform Fixtures.choice
           Fixtures.read_missing Fixtures.read_business_csv
           Fixtures.parse_date 0%nat
           (FileNotFoundError "No such file or directory: 'Google.csv'")
           eq_refl).
Defined.

(** C3 (as stated) fails: when [Facebook.csv] is present but unparsable,
    [pd.read_csv] raises a [ParserError], which the handler for
    [FileNotFoundError] does not catch; [load_data] raises it and returns
    no Dataset. *)
Lemma load_data_unparsable_counterexample :
  raised (Fixtures.read_unparsable "Facebook.csv")
  = Some (ParserError "Error tokenizing data") /\
  load_data Fixtures.randint Fixtures.uniform Fixtures.choice
            Fixtures.read_unparsable Fixtures.read_business_csv
            Fixtures.parse_date 0%nat
  = Raise (ParserError "Error tokenizing data").
Proof. split; reflexivity. Qed.

(* ================================================================== *)
(** ** The filter step *)

Lemma bool_index_filter {A} (f : A -> bool) (df : list A) :
  bool_index df (map f df) = filter f df.
Proof.
  induction df as [|r df IH]; simpl; [reflexivity|].
  rewrite IH. reflexivity.
Qed.

Lemma series_and_map {A} (f g : A -> bool) (df : list A) :
  Series.and (map f df) (map g df) = map (fun r => f r && g r) df.
Proof.
  induction df as [|r df IH]; simpl; [reflexivity|].
  rewrite IH. reflexivity.
Qed.

Lemma existsb_eqb_In (x : string) (l : list string) :
  existsb (String.eqb x) l = true <-> In x l.
Proof.
  rewrite existsb_exists. split.
  - intros (y & Hy & E). apply String.eqb_eq in E. subst. exact Hy.
  - intros H. exists x. split; [exact H|apply String.eqb_refl].
Qed.

Lemma keep_marketing_iff (s e : Z) (ps ss : list string) (r : mrow) :
  keep_marketing s e ps ss r = true <->
  (s <= date r <= e)%Z /\ In (platform r) ps /\ In (state r) ss.
Proof.
  unfold keep_marketing.
  rewrite !andb_true_iff, !Z.leb_le, !existsb_eqb_In. tauto.
Qed.

Lemma keep_business_iff (s e : Z) (r : brow) :
  keep_business s e r = true <-> (s <= b_date r <= e)%Z.
Proof.
  unfold keep_business. rewrite andb_true_iff, !Z.leb_le. tauto.
Qed.

(** With a pair of dates the masks of [main] select by the row predicates. *)
Lemma main_filter_pair (m : list mrow) (b : list brow) (s e : Z)
      (ps ss : list string) :
  main_filter m b [s; e] ps ss
  = (filter (keep_marketing s e ps ss) m, filter (keep_business s e) b).
Proof.
  unfold main_filter. simpl.
  unfold Series.ge, Series.le, Series.isin.
  rewrite !map_map, !series_and_map, !bool_index_filter. reflexivity.
Qed.

(** C4.  With a (start, end) pair the filter keeps exactly the marketing
    rows dated within [start, end] (both bounds included) whose platform and
    state are selected, and exactly the business rows dated within the same
    range, in table order; for (2025-06-01, 2025-06-01) a row dated
    2025-06-01 stays and a row dated 2025-06-02 goes. *)
Theorem main_filter_inclusive_range (m : list mrow) (b : list brow)
        (s e : Z) (ps ss : list string) :
  let fm := fst (main_filter m b [s; e] ps ss) in
  let fb := snd (main_filter m b [s; e] ps ss) in
  (fm = filter (keep_marketing s e ps ss) m /\
   fb = filter (keep_business s e) b) /\
  (forall r, In r fm <->
             In r m /\ (s <= date r <= e)%Z /\
             In (platform r) ps /\ In (state r) ss) /\
  (forall r, In r fb <-> In r b /\ (s <= b_date r <= e)%Z) /\
  (let june1 := Timestamp 2025 6 1 in
   let fm1 := fst (main_filter m b [june1; june1] ps ss) in
   let fb1 := snd (main_filter m b [june1; june1] ps ss) in
   (forall r, In r m -> date r = Timestamp 2025 6 1 ->
              In (platform r) ps -> In (state r) ss -> In r fm1) /\
   (forall r, date r = Timestamp 2025 6 2 -> ~ In r fm1) /\
   (forall r, In r b -> b_date r = Timestamp 2025 6 1 -> In r fb1) /\
   (forall r, b_date r = Timestamp 2025 6 2 -> ~ In r fb1)).
Proof.
  intros fm fb. subst fm fb. cbv zeta.
  rewrite !main_filter_pair. simpl fst. simpl snd.
  revert s e.
  assert (Hm : forall s e r, In r (filter (keep_marketing s e ps ss) m) <->
                         In r m /\ (s <= date r <= e)%Z /\
                         In (platform r) ps /\ In (state r) ss).
  { intros s e r. rewrite filter_In, keep_marketing_iff. reflexivity. }
  assert (Hb : forall s e r, In r (filter (keep_business s e) b) <->
                         In r b /\ (s <= b_date r <= e)%Z).
  { intros s e r. rewrite filter_In, keep_business_iff. reflexivity. }
  intros s e.
  split; [split; reflexivity|]. split; [apply Hm|]. split; [apply Hb|].
  repeat split.
  - intros r Hr Hd Hp Hs. apply Hm. rewrite Hd. repeat split; auto; lia.
  - intros r Hd Hr. apply Hm in Hr. rewrite Hd in Hr.
    destruct Hr as (_ & (_ & Hle) & _). vm_compute in Hle. apply Hle.
    reflexivity.
  - intros r Hr Hd. apply Hb. rewrite Hd. repeat split; auto; lia.
  - intros r Hd Hr. apply Hb in Hr. rewrite Hd in Hr.
    destruct Hr as (_ & (_ & Hle)). vm_compute in Hle. apply Hle.
    reflexivity.
Qed.

(** C5.  When [date_range] is not a pair (for instance a single date) both
    tables pass through the filter step unchanged. *)
Theorem main_filter_malformed_range (m : list mrow) (b : list brow)
        (date_range : list Z) (ps ss : list string) :
  List.length date_range <> 2%nat ->
  main_filter m b date_range ps ss = (m, b).
Proof.
  intros H. unfold main_filter.
  destruct (Nat.eqb (List.length date_range) 2) eqn:E; [|reflexivity].
  apply Nat.eqb_eq in E. contradiction.
Qed.

Lemma main_filter_malformed_range_witness :
  let m := [Fixtures.row (Timestamp 2025 6 1) "Facebook" "NY" 1000 10 100 300;
            Fixtures.row (Timestamp 2025 6 2) "Google" "CA" 0 0 0 0] in
  let b := [Fixtures.business_row (Timestamp 2025 6 1) 50] in
  List.length [Timestamp 2025 6 2] <> 2%nat /\
  main_filter m b [Timestamp 2025 6 2] ["Facebook"] ["NY"] = (m, b).
Proof.
  intros m b.
  assert (H : List.length [Timestamp 2025 6 2] <> 2%nat)
    by (simpl; discriminate).
  split; [exact H|].
  exact (main_filter_malformed_range m b [Timestamp 2025 6 2]
                                     ["Facebook"] ["NY"] H).
Defined.

(* ================================================================== *)
(** ** Sums of columns *)

Lemma sum_nil : Series.sum [] = 0.
Proof. reflexivity. Qed.

Lemma sum_from (l : list Q) :
  forall a, fold_left Qplus l a == a + Series.sum l.
Proof.
  unfold Series.sum. induction l as [|x l IH]; intros a; simpl.
  - ring.
  - rewrite (IH (a + x)), (IH (0 + x)). ring.
Qed.

Lemma sum_cons (x : Q) (l : list Q) : Series.sum (x :: l) == x + Series.sum l.
Proof.
  unfold Series.sum at 1. simpl. rewrite sum_from. ring.
Qed.

Lemma sum_app (l1 l2 : list Q) :
  Series.sum (l1 ++ l2) == Series.sum l1 + Series.sum l2.
Proof.
  induction l1 as [|x l1 IH]; simpl.
  - rewrite sum_nil. ring.
  - rewrite !sum_cons, IH. ring.
Qed.

Lemma sum_nonneg (l : list Q) :
  Forall (fun x => 0 <= x) l -> 0 <= Series.sum l.
Proof.
  induction 1 as [|x l Hx _ IH].
  - apply Qle_refl.
  - rewrite sum_cons.
    setoid_replace 0 with (0 + 0) at 1 by ring.
    apply Qplus_le_compat; assumption.
Qed.

(** The float sum of a column is the sum of its values. *)
Lemma sum_qsum (l : list Q) : Series.sum l == qsum l.
Proof.
  induction l as [|x l IH]; simpl.
  - reflexivity.
  - rewrite sum_cons, IH. reflexivity.
Qed.

(** Integer columns: the sum as a number. *)
Lemma zsum_app (l1 l2 : list Z) : zsum (l1 ++ l2) = (zsum l1 + zsum l2)%Z.
Proof.
  induction l1 as [|x l1 IH]; simpl; [reflexivity|]. rewrite IH. lia.
Qed.

Lemma zsum_perm (l l' : list Z) : Permutation l l' -> zsum l = zsum l'.
Proof.
  induction 1 as [|x l l' _ IH|x y l|l l' l'' _ IH1 _ IH2]; simpl;
    try lia; congruence.
Qed.

Lemma zsum_concat (ls : list (list Z)) :
  zsum (List.concat ls) = zsum (map zsum ls).
Proof.
  induction ls as [|l ls IH]; simpl; [reflexivity|].
  rewrite zsum_app, IH. reflexivity.
Qed.

(** A sum of Python integers is exact. *)
Lemma sum_object_from (l : list Z) :
  forall a, fold_left Z.add l a = (a + zsum l)%Z.
Proof.
  induction l as [|x l IH]; intros a; simpl; [lia|].
  rewrite (IH (a + x)%Z). lia.
Qed.

Lemma sum_object_zsum (l : list Z) : Series.sum_object l = zsum l.
Proof. unfold Series.sum_object. rewrite sum_object_from. lia. Qed.

(** int64 arithmetic: [wrap64] depends on the residue modulo 2^64 only, and
    leaves the integers of the int64 range alone. *)
Lemma wrap64_mod (a b : Z) :
  (a mod 2 ^ 64 = b mod 2 ^ 64)%Z -> wrap64 a = wrap64 b.
Proof.
  intros H. unfold wrap64. f_equal.
  rewrite <- (Zplus_mod_idemp_l a), <- (Zplus_mod_idemp_l b), H. reflexivity.
Qed.

Lemma wrap64_residue (a : Z) : (wrap64 a mod 2 ^ 64 = a mod 2 ^ 64)%Z.
Proof.
  unfold wrap64.
  rewrite Zminus_mod, Zmod_mod, <- Zminus_mod.
  f_equal. lia.
Qed.

Lemma wrap64_small (z : Z) :
  (- 2 ^ 63 <= z < 2 ^ 63)%Z -> wrap64 z = z.
Proof.
  intros H. unfold wrap64. rewrite Z.mod_small; lia.
Qed.

Lemma wrap64_range (z : Z) : (- 2 ^ 63 <= wrap64 z < 2 ^ 63)%Z.
Proof.
  unfold wrap64.
  pose proof (Z.mod_pos_bound (z + 2 ^ 63) (2 ^ 64) ltac:(lia)). lia.
Qed.

Lemma wrap64_add_l (a x : Z) : wrap64 (wrap64 a + x) = wrap64 (a + x).
Proof.
  apply wrap64_mod.
  rewrite <- (Zplus_mod_idemp_l (wrap64 a)), wrap64_residue,
    Zplus_mod_idemp_l.
  reflexivity.
Qed.

Lemma sumZ_from (l : list Z) :
  forall a, fold_left (fun acc x => wrap64 (acc + x)) l (wrap64 a)
            = wrap64 (a + zsum l).
Proof.
  induction l as [|x l IH]; intros a; simpl.
  - f_equal. lia.
  - rewrite wrap64_add_l, (IH (a + x)%Z). f_equal. lia.
Qed.

(** The int64 sum of a column is its sum reduced to int64. *)
Lemma sumZ_wrap (l : list Z) : Series.sumZ l = wrap64 (zsum l).
Proof.
  unfold Series.sumZ. change 0%Z with (wrap64 0) at 1.
  rewrite sumZ_from. reflexivity.
Qed.

Lemma sum_int_total (dt : dtype) (l : list Z) :
  Series.sum_int dt l = int_total dt l.
Proof.
  destruct dt; simpl; [apply sumZ_wrap|apply sum_object_zsum].
Qed.

Lemma zsum_map_wrap (l : list Z) :
  (zsum (map wrap64 l) mod 2 ^ 64 = zsum l mod 2 ^ 64)%Z.
Proof.
  induction l as [|x l IH]; [reflexivity|].
  change (zsum (map wrap64 (x :: l))) with (wrap64 x + zsum (map wrap64 l))%Z.
  change (zsum (x :: l)) with (x + zsum l)%Z.
  rewrite Zplus_mod, wrap64_residue, IH, <- Zplus_mod. reflexivity.
Qed.

Lemma zsum_map_int_total (dt : dtype) (l : list (list Z)) :
  wrap64 (zsum (map (int_total dt) l)) = wrap64 (zsum (map zsum l)).
Proof.
  destruct dt; simpl; [|reflexivity].
  apply wrap64_mod. rewrite <- (map_map zsum wrap64). apply zsum_map_wrap.
Qed.

(* ================================================================== *)
(** ** KPIs *)

Lemma Qgt_bool_iff (a b : Q) : Qgt_bool a b = true <-> b < a.
Proof.
  unfold Qgt_bool. rewrite negb_true_iff. split.
  - intros H. apply Qnot_le_lt. intros Hle.
    apply Qle_bool_iff in Hle. congruence.
  - intros H. destruct (Qle_bool a b) eqn:E; [|reflexivity].
    apply Qle_bool_iff in E. exfalso. exact (Qlt_not_le _ _ H E).
Qed.

Lemma Qpos_nonzero (a : Q) : 0 < a -> ~ a == 0.
Proof. intros H E. rewrite E in H. exact (Qlt_irrefl 0 H). Qed.

Lemma inject_Z_pos_nonzero (n : Z) : (0 < n)%Z -> ~ inject_Z n == 0.
Proof. intros H. unfold Qeq, inject_Z. simpl. lia. Qed.

(** C6.  On an empty marketing table [calculate_kpis] returns the four
    zeros, whatever the business table. *)
Theorem calculate_kpis_empty (b : list brow) :
  calculate_kpis [] b
  = {| total_spend := 0; total_attributed_revenue := 0;
       overall_roas := Fin 0; blended_cac := Fin 0 |}.
Proof. reflexivity. Qed.

(** [calculate_kpis] on a table with a first row. *)
Lemma calculate_kpis_cons (r : mrow) (m : list mrow) (b : list brow) :
  calculate_kpis (r :: m) b
  = let ts := Series.sum (map spend (r :: m)) in
    let tr := Series.sum (map attributed_revenue (r :: m)) in
    let tnc := Series.sumZ (map new_customers b) in
    {| total_spend := ts; total_attributed_revenue := tr;
       overall_roas := if Qgt_bool ts 0 then pdiv tr ts else Fin 0;
       blended_cac :=
         if (0 <? tnc)%Z then pdiv ts (inject_Z tnc) else Fin 0 |}.
Proof.
  unfold calculate_kpis. cbn [empty]. destruct b; reflexivity.
Qed.

(** C7 (as amended).  On a non-empty marketing table [calculate_kpis]
    returns the two sums, [overall_roas] = revenue / spend when the spend is
    positive and 0 otherwise, and [blended_cac] = spend / new customers when
    the new customers are positive and 0 otherwise, where the new customers
    are the sum over the business table taken in int64 arithmetic: the sum
    reduced modulo 2^64 to the int64 range, hence the sum itself whenever
    that lies in the range (0 for an empty business table).  Every value is
    finite.  With new customers [0, 0] and a total spend of 500,
    [blended_cac] is 0. *)
Theorem calculate_kpis_nonempty (m : list mrow) (b : list brow) :
  m <> [] ->
  let k := calculate_kpis m b in
  let total_new_customers := wrap64 (zsum (map new_customers b)) in
  total_spend k == qsum (map spend m) /\
  total_attributed_revenue k == qsum (map attributed_revenue m) /\
  (0 < total_spend k ->
   overall_roas k = Fin (total_attributed_revenue k / total_spend k)) /\
  (~ 0 < total_spend k -> overall_roas k = Fin 0) /\
  ((0 < total_new_customers)%Z ->
   blended_cac k = Fin (total_spend k / inject_Z total_new_customers)) /\
  (~ (0 < total_new_customers)%Z -> blended_cac k = Fin 0) /\
  ((- 2 ^ 63 <= zsum (map new_customers b) < 2 ^ 63)%Z ->
   total_new_customers = zsum (map new_customers b)) /\
  (b = [] -> blended_cac k = Fin 0) /\
  (is_finite (overall_roas k) = true /\ is_finite (blended_cac k) = true) /\
  (map new_customers b = [0; 0]%Z -> qsum (map spend m) == 500 ->
   total_spend k == 500 /\ blended_cac k = Fin 0).
Proof.
  intros Hne k tnc. subst k.
  destruct m as [|r m]; [contradiction|].
  rewrite calculate_kpis_cons. cbv zeta.
  rewrite sumZ_wrap. fold tnc.
  set (ts := Series.sum (map spend (r :: m))).
  set (tr := Series.sum (map attributed_revenue (r :: m))).
  cbn [total_spend total_attributed_revenue overall_roas blended_cac].
  assert (Hroas_pos : 0 < ts ->
            (if Qgt_bool ts 0 then pdiv tr ts else Fin 0) = Fin (tr / ts)).
  { intros H. rewrite (proj2 (Qgt_bool_iff ts 0) H).
    apply pdiv_nonzero, Qpos_nonzero, H. }
  assert (Hroas_neg : ~ 0 < ts ->
            (if Qgt_bool ts 0 then pdiv tr ts else Fin 0) = Fin 0).
  { intros H. destruct (Qgt_bool ts 0) eqn:E; [|reflexivity].
    apply Qgt_bool_iff in E. contradiction. }
  assert (Hcac_pos : (0 < tnc)%Z ->
            (if (0 <? tnc)%Z then pdiv ts (inject_Z tnc) else Fin 0)
            = Fin (ts / inject_Z tnc)).
  { intros H. rewrite (proj2 (Z.ltb_lt 0 tnc) H).
    apply pdiv_nonzero, inject_Z_pos_nonzero, H. }
  assert (Hcac_neg : ~ (0 < tnc)%Z ->
            (if (0 <? tnc)%Z then pdiv ts (inject_Z tnc) else Fin 0) = Fin 0).
  { intros H. destruct (0 <? tnc)%Z eqn:E; [|reflexivity].
    apply Z.ltb_lt in E. contradiction. }
  split; [apply sum_qsum|]. split; [apply sum_qsum|].
  split; [exact Hroas_pos|]. split; [exact Hroas_neg|].
  split; [exact Hcac_pos|]. split; [exact Hcac_neg|].
  split; [intros H; apply wrap64_small; exact H|].
  split; [|split; [split|]].
  - intros ->. apply Hcac_neg. subst tnc. vm_compute. discriminate.
  - destruct (Qlt_le_dec 0 ts) as [H|H].
    + rewrite (Hroas_pos H). reflexivity.
    + rewrite (Hroas_neg (Qle_not_lt _ _ H)). reflexivity.
  - destruct (Z_lt_le_dec 0 tnc) as [H|H].
    + rewrite (Hcac_pos H). reflexivity.
    + rewrite Hcac_neg by lia. reflexivity.
  - intros Hb Hs. split.
    + unfold ts. rewrite sum_qsum. exact Hs.
    + apply Hcac_neg. subst tnc. rewrite Hb. vm_compute. discriminate.
Qed.

Lemma calculate_kpis_nonempty_witness :
  let m := [Fixtures.row (Timestamp 2025 6 1) "Facebook" "NY" 1000 10 200 600;
            Fixtures.row (Timestamp 2025 6 2) "Google" "CA" 2000 40 300 450] in
  let b := [Fixtures.business_row (Timestamp 2025 6 1) 30;
            Fixtures.business_row (Timestamp 2025 6 2) 20] in
  m <> [] /\
  total_spend (calculate_kpis m b) == 200 + 300 /\
  total_attributed_revenue (calculate_kpis m b) == 600 + 450 /\
  feq (overall_roas (calculate_kpis m b)) (Fin (21 # 10)) /\
  wrap64 (zsum (map new_customers b)) = 50%Z /\
  feq (blended_cac (calculate_kpis m b)) (Fin 10).
Proof.
  intros m b.
  assert (Hne : m <> []) by (subst m; discriminate).
  pose proof (calculate_kpis_nonempty m b Hne) as H. cbv zeta in H.
  destruct H as (Hs & Hr & Hroas & _ & Hcac & _).
  split; [exact Hne|].
  split; [rewrite Hs; reflexivity|].
  split; [rewrite Hr; reflexivity|].
  split; [rewrite Hroas; reflexivity|].
  split; [reflexivity|].
  rewrite Hcac; reflexivity.
Defined.

(** C7 (as stated) fails: with new customers 2^63 - 1 and 1 their sum is
    2^63, a positive number, so the claim gives a CAC of 500 / 2^63; the
    int64 sum is -2^63, and [calculate_kpis] returns a CAC of 0. *)
Lemma calculate_kpis_int64_sum_counterexample :
  let m := [Fixtures.row (Timestamp 2025 6 1) "Facebook" "NY" 1000 10 500 600] in
  let b := [Fixtures.business_row (Timestamp 2025 6 1) (2 ^ 63 - 1);
            Fixtures.business_row (Timestamp 2025 6 2) 1] in
  m <> [] /\
  zsum (map new_customers b) = (2 ^ 63)%Z /\
  (0 < zsum (map new_customers b))%Z /\
  Series.sumZ (map new_customers b) = (- 2 ^ 63)%Z /\
  blended_cac (calculate_kpis m b) = Fin 0 /\
  ~ feq (blended_cac (calculate_kpis m b))
        (Fin (total_spend (calculate_kpis m b)
              / inject_Z (zsum (map new_customers b)))).
Proof.
  intros m b. split; [discriminate|].
  split; [reflexivity|]. split; [reflexivity|].
  split; [reflexivity|]. split; [reflexivity|].
  vm_compute. discriminate.
Qed.

(* ================================================================== *)
(** ** Grouping *)

Section Groupby.

Context {A : Type}.
Variable key : A -> string.

Lemma compare_cases (k k' : string) :
  CompareSpec (k = k') (key_lt k k') (key_lt k' k) (String_as_OT.compare k k').
Proof. exact (String_as_OT.compare_spec k k'). Qed.

Lemma lt_irrefl (k : string) : ~ key_lt k k.
Proof. apply (StrictOrder_Irreflexive k). Qed.

Lemma lt_trans (a b c : string) : key_lt a b -> key_lt b c -> key_lt a c.
Proof. apply (StrictOrder_Transitive a b c). Qed.

Lemma above_notin (k k' : string) (l : list string) :
  Forall (key_lt k') l -> key_lt k k' \/ k = k' -> ~ In k l.
Proof.
  intros Hall Hk Hin. rewrite Forall_forall in Hall.
  specialize (Hall k Hin). destruct Hk as [Hk| ->].
  - exact (lt_irrefl k (lt_trans _ _ _ Hk Hall)).
  - exact (lt_irrefl k' Hall).
Qed.

Lemma group_insert_keys (k : string) (r : A) (gs : list (string * list A))
      (k0 : string) :
  In k0 (map fst (group_insert k r gs)) <-> k0 = k \/ In k0 (map fst gs).
Proof.
  induction gs as [|[k' rs] gs IH]; simpl.
  - intuition congruence.
  - destruct (compare_cases k k') as [E|Hlt|Hgt]; simpl.
    + subst k'. intuition congruence.
    + intuition congruence.
    + rewrite IH. intuition congruence.
Qed.

Lemma group_insert_sorted (k : string) (r : A) (gs : list (string * list A)) :
  StronglySorted key_lt (map fst gs) ->
  StronglySorted key_lt (map fst (group_insert k r gs)).
Proof.
  induction gs as [|[k' rs] gs IH]; simpl; intros Hs.
  - repeat constructor.
  - apply StronglySorted_inv in Hs. destruct Hs as [Hs Hall].
    destruct (compare_cases k k') as [E|Hlt|Hgt]; simpl.
    + constructor; assumption.
    + constructor.
      * constructor; assumption.
      * constructor; [exact Hlt|].
        eapply Forall_impl; [|exact Hall].
        intros a Ha. exact (lt_trans _ _ _ Hlt Ha).
    + constructor; [apply IH; exact Hs|].
      apply Forall_forall. intros k0 Hin.
      apply group_insert_keys in Hin. destruct Hin as [->|Hin].
      * exact Hgt.
      * rewrite Forall_forall in Hall. apply Hall. exact Hin.
Qed.

(** Where an entry of the groups after one insertion comes from. *)
Lemma group_insert_In (k : string) (r : A) (gs : list (string * list A))
      (k0 : string) (rs0 : list A) :
  StronglySorted key_lt (map fst gs) ->
  In (k0, rs0) (group_insert k r gs) ->
  (k0 <> k /\ In (k0, rs0) gs) \/
  (k0 = k /\ exists rs, In (k, rs) gs /\ rs0 = rs ++ [r]) \/
  (k0 = k /\ ~ In k (map fst gs) /\ rs0 = [r]).
Proof.
  induction gs as [|[k' rs] gs IH]; simpl; intros Hs Hin.
  - destruct Hin as [Hin|[]]. injection Hin as <- <-.
    right. right. auto.
  - apply StronglySorted_inv in Hs. destruct Hs as [Hs Hall].
    destruct (compare_cases k k') as [E|Hlt|Hgt];
      simpl in Hin.
    + subst k'. destruct Hin as [Hin|Hin].
      * injection Hin as <- <-. right. left. split; [reflexivity|].
        exists rs. auto.
      * left. split; [|auto]. intros ->.
        apply (above_notin k k (map fst gs) Hall); [auto|].
        apply (in_map fst) in Hin. exact Hin.
    + destruct Hin as [Hin|Hin].
      * injection Hin as <- <-. right. right. split; [reflexivity|].
        split; [|reflexivity].
        intros [E|Hk]; [subst k'; exact (lt_irrefl k Hlt)|].
        exact (above_notin k k' (map fst gs) Hall (or_introl Hlt) Hk).
      * left. split; [|exact Hin]. intros ->.
        destruct Hin as [E|Hk].
        -- injection E as -> _. exact (lt_irrefl k Hlt).
        -- apply (in_map fst) in Hk.
           exact (above_notin k k' (map fst gs) Hall (or_introl Hlt) Hk).
    + assert (Hne : k' <> k) by (intros ->; exact (lt_irrefl k Hgt)).
      destruct Hin as [Hin|Hin].
      * injection Hin as <- <-. left. auto.
      * destruct (IH Hs Hin) as [[Hk Hi]|[[-> (rs1 & Hi & ->)]|[-> [Hk ->]]]].
        -- left. auto.
        -- right. left. split; [reflexivity|]. exists rs1. auto.
        -- right. right. split; [reflexivity|]. split; [|reflexivity].
           intros [E|Hi]; [exact (Hne E)|exact (Hk Hi)].
Qed.

Lemma filter_snoc (f : A -> bool) (l : list A) (r : A) :
  filter f (l ++ [r]) = filter f l ++ (if f r then [r] else []).
Proof. rewrite filter_app. reflexivity. Qed.

Lemma filter_none (f : A -> bool) (l : list A) :
  (forall x, In x l -> f x = false) -> filter f l = [].
Proof.
  induction l as [|x l IH]; simpl; intros H; [reflexivity|].
  rewrite (H x (or_introl eq_refl)). apply IH. intros y Hy. apply H. auto.
Qed.

Lemma groups_of_step (l : list A) (gs : list (string * list A)) (r : A) :
  groups_of key l gs ->
  groups_of key (l ++ [r]) (group_insert (key r) r gs).
Proof.
  intros (Hs & Hrows & Hkeys). split; [|split].
  - apply group_insert_sorted. exact Hs.
  - intros k rs Hin. rewrite filter_snoc.
    destruct (group_insert_In _ _ _ _ _ Hs Hin)
      as [[Hk Hi]|[[-> (rs1 & Hi & ->)]|[-> [Hk ->]]]].
    + destruct (Hrows k rs Hi) as [-> Hne].
      apply String.eqb_neq in Hk. rewrite String.eqb_sym, Hk, app_nil_r.
      auto.
    + destruct (Hrows _ _ Hi) as [-> Hne]. rewrite String.eqb_refl.
      split; [reflexivity|]. intros E. apply app_eq_nil in E.
      destruct E as [_ E]. discriminate.
    + rewrite String.eqb_refl. split; [|discriminate].
      rewrite filter_none; [reflexivity|].
      intros x Hx. apply String.eqb_neq. intros E.
      apply Hk. rewrite <- E. apply Hkeys. exact Hx.
  - intros x Hx. apply group_insert_keys.
    apply in_app_or in Hx. destruct Hx as [Hx|[->|[]]].
    + right. apply Hkeys. exact Hx.
    + left. reflexivity.
Qed.

Lemma fold_groups_of (df l0 : list A) (gs : list (string * list A)) :
  groups_of key l0 gs ->
  groups_of key (l0 ++ df)
            (fold_left (fun gs r => group_insert (key r) r gs) df gs).
Proof.
  revert l0 gs. induction df as [|r df IH]; intros l0 gs H; simpl.
  - rewrite app_nil_r. exact H.
  - change (r :: df) with ([r] ++ df). rewrite app_assoc.
    apply IH. apply groups_of_step. exact H.
Qed.

(** [groupby] yields the groups of the table. *)
Lemma groupby_groups_of (df : list A) : groups_of key df (groupby key df).
Proof.
  apply (fold_groups_of df [] []). split; [constructor|].
  split; [intros k rs []|intros r []].
Qed.

Lemma groupby_keys (df : list A) (k : string) :
  In k (map fst (groupby key df)) <-> In k (map key df).
Proof.
  destruct (groupby_groups_of df) as (_ & Hrows & Hkeys). split.
  - intros Hin. apply in_map_iff in Hin. destruct Hin as ([k' rs] & <- & Hin).
    destruct (Hrows _ _ Hin) as [Hrs Hne]. simpl.
    destruct rs as [|x rs]; [contradiction|].
    assert (Hx : In x (filter (fun r => String.eqb (key r) k') df))
      by (rewrite <- Hrs; left; reflexivity).
    apply filter_In in Hx. destruct Hx as [Hx E].
    apply String.eqb_eq in E. rewrite <- E. apply in_map. exact Hx.
  - intros Hin. apply in_map_iff in Hin. destruct Hin as (r & <- & Hin).
    apply Hkeys. exact Hin.
Qed.

End Groupby.

(* ================================================================== *)
(** ** Groups over any ordered key *)

Section KeyedGroups.

Context {K A : Type}.
Variable cmp : K -> K -> comparison.
Variable klt : K -> K -> Prop.
Variable keqb : K -> K -> bool.
Variable ins : K -> A -> list (K * list A) -> list (K * list A).
Variable key : A -> K.

Hypothesis cmp_spec :
  forall a b, CompareSpec (a = b) (klt a b) (klt b a) (cmp a b).
Hypothesis klt_irrefl : forall a, ~ klt a a.
Hypothesis klt_trans : forall a b c, klt a b -> klt b c -> klt a c.
Hypothesis keqb_eq : forall a b, keqb a b = true <-> a = b.
Hypothesis ins_nil : forall k r, ins k r [] = [(k, [r])].
Hypothesis ins_cons :
  forall k r k' rs gs,
    ins k r ((k', rs) :: gs)
    = match cmp k k' with
      | Eq => (k', rs ++ [r]) :: gs
      | Lt => (k, [r]) :: (k', rs) :: gs
      | Gt => (k', rs) :: ins k r gs
      end.

Lemma kg_above_notin (k k' : K) (l : list K) :
  Forall (klt k') l -> klt k k' \/ k = k' -> ~ In k l.
Proof.
  intros Hall Hk Hin. rewrite Forall_forall in Hall.
  specialize (Hall k Hin). destruct Hk as [Hk| ->].
  - exact (klt_irrefl k (klt_trans _ _ _ Hk Hall)).
  - exact (klt_irrefl k' Hall).
Qed.

Lemma kg_ins_keys (k : K) (r : A) (gs : list (K * list A)) (k0 : K) :
  In k0 (map fst (ins k r gs)) <-> k0 = k \/ In k0 (map fst gs).
Proof.
  induction gs as [|[k' rs] gs IH].
  - rewrite ins_nil. simpl. intuition congruence.
  - rewrite ins_cons.
    destruct (cmp_spec k k') as [E|Hlt|Hgt]; simpl.
    + subst k'. intuition congruence.
    + intuition congruence.
    + rewrite IH. intuition congruence.
Qed.

Lemma kg_ins_sorted (k : K) (r : A) (gs : list (K * list A)) :
  StronglySorted klt (map fst gs) ->
  StronglySorted klt (map fst (ins k r gs)).
Proof.
  induction gs as [|[k' rs] gs IH]; intros Hs.
  - rewrite ins_nil. repeat constructor.
  - simpl in Hs. apply StronglySorted_inv in Hs. destruct Hs as [Hs Hall].
    rewrite ins_cons. destruct (cmp_spec k k') as [E|Hlt|Hgt]; simpl.
    + constructor; assumption.
    + constructor.
      * constructor; assumption.
      * constructor; [exact Hlt|].
        eapply Forall_impl; [|exact Hall].
        intros a Ha. exact (klt_trans _ _ _ Hlt Ha).
    + constructor; [apply IH; exact Hs|].
      apply Forall_forall. intros k0 Hin.
      apply kg_ins_keys in Hin. destruct Hin as [->|Hin].
      * exact Hgt.
      * rewrite Forall_forall in Hall. apply Hall. exact Hin.
Qed.

Lemma kg_ins_In (k : K) (r : A) (gs : list (K * list A))
      (k0 : K) (rs0 : list A) :
  StronglySorted klt (map fst gs) ->
  In (k0, rs0) (ins k r gs) ->
  (k0 <> k /\ In (k0, rs0) gs) \/
  (k0 = k /\ exists rs, In (k, rs) gs /\ rs0 = rs ++ [r]) \/
  (k0 = k /\ ~ In k (map fst gs) /\ rs0 = [r]).
Proof.
  induction gs as [|[k' rs] gs IH]; intros Hs Hin.
  - rewrite ins_nil in Hin. destruct Hin as [Hin|[]].
    injection Hin as <- <-. right. right. auto.
  - simpl in Hs. apply StronglySorted_inv in Hs. destruct Hs as [Hs Hall].
    rewrite ins_cons in Hin.
    destruct (cmp_spec k k') as [E|Hlt|Hgt].
    + subst k'. destruct Hin as [Hin|Hin].
      * injection Hin as <- <-. right. left. split; [reflexivity|].
        exists rs. split; [left; reflexivity|reflexivity].
      * left. split; [|right; exact Hin]. intros ->.
        apply (kg_above_notin k k (map fst gs) Hall); [auto|].
        apply (in_map fst) in Hin. exact Hin.
    + destruct Hin as [Hin|Hin].
      * injection Hin as <- <-. right. right. split; [reflexivity|].
        split; [|reflexivity]. simpl.
        intros [E|Hk]; [subst k'; exact (klt_irrefl k Hlt)|].
        exact (kg_above_notin k k' (map fst gs) Hall (or_introl Hlt) Hk).
      * left. split; [|exact Hin]. intros ->.
        destruct Hin as [E|Hk].
        -- injection E as -> _. exact (klt_irrefl k Hlt).
        -- apply (in_map fst) in Hk.
           exact (kg_above_notin k k' (map fst gs) Hall (or_introl Hlt) Hk).
    + assert (Hne : k' <> k) by (intros ->; exact (klt_irrefl k Hgt)).
      destruct Hin as [Hin|Hin].
      * injection Hin as <- <-. left. split; [exact Hne|left; reflexivity].
      * destruct (IH Hs Hin) as [[Hk Hi]|[[-> (rs1 & Hi & ->)]|[-> [Hk ->]]]].
        -- left. split; [exact Hk|right; exact Hi].
        -- right. left. split; [reflexivity|]. exists rs1.
           split; [right; exact Hi|reflexivity].
        -- right. right. split; [reflexivity|]. split; [|reflexivity].
           simpl. intros [E|Hi]; [exact (Hne E)|exact (Hk Hi)].
Qed.

Lemma keqb_refl (a : K) : keqb a a = true.
Proof. apply keqb_eq. reflexivity. Qed.

Lemma keqb_neq (a b : K) : a <> b -> keqb a b = false.
Proof.
  intros H. destruct (keqb a b) eqn:E; [|reflexivity].
  apply keqb_eq in E. contradiction.
Qed.

Lemma kg_step (l : list A) (gs : list (K * list A)) (r : A) :
  keyed_groups_of klt keqb key l gs ->
  keyed_groups_of klt keqb key (l ++ [r]) (ins (key r) r gs).
Proof.
  intros (Hs & Hrows & Hkeys). split; [|split].
  - apply kg_ins_sorted. exact Hs.
  - intros k rs Hin. rewrite filter_app. cbn [filter].
    destruct (kg_ins_In _ _ _ _ _ Hs Hin)
      as [[Hk Hi]|[[-> (rs1 & Hi & ->)]|[-> [Hk ->]]]].
    + destruct (Hrows k rs Hi) as [-> Hne].
      rewrite (keqb_neq (key r) k) by (intros E; apply Hk; auto).
      rewrite app_nil_r. auto.
    + destruct (Hrows _ _ Hi) as [-> Hne]. rewrite keqb_refl.
      split; [reflexivity|]. intros E. apply app_eq_nil in E.
      destruct E as [_ E]. discriminate.
    + rewrite keqb_refl. split; [|discriminate].
      rewrite filter_none; [reflexivity|].
      intros x Hx. apply keqb_neq. intros E.
      apply Hk. rewrite <- E. apply Hkeys. exact Hx.
  - intros x Hx. apply kg_ins_keys.
    apply in_app_or in Hx. destruct Hx as [Hx|[->|[]]].
    + right. apply Hkeys. exact Hx.
    + left. reflexivity.
Qed.

Lemma kg_fold (df l0 : list A) (gs : list (K * list A)) :
  keyed_groups_of klt keqb key l0 gs ->
  keyed_groups_of klt keqb key (l0 ++ df)
                  (fold_left (fun gs r => ins (key r) r gs) df gs).
Proof.
  revert l0 gs. induction df as [|r df IH]; intros l0 gs H; simpl.
  - rewrite app_nil_r. exact H.
  - change (r :: df) with ([r] ++ df). rewrite app_assoc.
    apply IH. apply kg_step. exact H.
Qed.

Lemma kg_groups (df : list A) :
  keyed_groups_of klt keqb key df
                  (fold_left (fun gs r => ins (key r) r gs) df []).
Proof.
  apply (kg_fold df [] []). split; [constructor|].
  split; [intros k rs []|intros r []].
Qed.

Lemma kg_keys (df : list A) (k : K) :
  In k (map fst (fold_left (fun gs r => ins (key r) r gs) df []))
  <-> In k (map key df).
Proof.
  destruct (kg_groups df) as (_ & Hrows & Hkeys). split.
  - intros Hin. apply in_map_iff in Hin. destruct Hin as ([k' rs] & <- & Hin).
    destruct (Hrows _ _ Hin) as [Hrs Hne]. simpl.
    destruct rs as [|x rs]; [contradiction|].
    assert (Hx : In x (filter (fun r => keqb (key r) k') df))
      by (rewrite <- Hrs; left; reflexivity).
    apply filter_In in Hx. destruct Hx as [Hx E].
    apply keqb_eq in E. rewrite <- E. apply in_map. exact Hx.
  - intros Hin. apply in_map_iff in Hin. destruct Hin as (r & <- & Hin).
    apply Hkeys. exact Hin.
Qed.

(** One insertion adds the value of the new row to the total of the group
    sums, whatever the column [v]. *)
Lemma kg_ins_sum (v : A -> Q) (k : K) (r : A) (gs : list (K * list A)) :
  Series.sum (map (fun g => Series.sum (map v (snd g))) (ins k r gs))
  == Series.sum (map (fun g => Series.sum (map v (snd g))) gs) + v r.
Proof.
  induction gs as [|[k' rs] gs IH].
  - rewrite ins_nil. cbn [map snd]. rewrite !sum_cons, !sum_nil. ring.
  - rewrite ins_cons. destruct (cmp k k'); cbn [map snd].
    + rewrite !sum_cons, map_app, sum_app. cbn [map].
      rewrite sum_cons, sum_nil. ring.
    + rewrite !sum_cons, sum_nil. ring.
    + rewrite !sum_cons, IH. ring.
Qed.

Lemma kg_fold_sum (v : A -> Q) (df : list A) :
  forall gs,
    Series.sum (map (fun g => Series.sum (map v (snd g)))
                    (fold_left (fun gs r => ins (key r) r gs) df gs))
    == Series.sum (map (fun g => Series.sum (map v (snd g))) gs)
       + Series.sum (map v df).
Proof.
  induction df as [|r df IH]; intros gs; simpl.
  - rewrite sum_nil. ring.
  - rewrite IH, kg_ins_sum, sum_cons. ring.
Qed.

(** One insertion puts the new row into exactly one group. *)
Lemma kg_ins_perm (k : K) (r : A) (gs : list (K * list A)) :
  Permutation (List.concat (map snd (ins k r gs)))
              (r :: List.concat (map snd gs)).
Proof.
  induction gs as [|[k' rs] gs IH].
  - rewrite ins_nil. simpl. apply Permutation_refl.
  - rewrite ins_cons. destruct (cmp k k'); cbn [map snd List.concat].
    + rewrite <- app_assoc. simpl. apply Permutation_sym.
      apply Permutation_middle.
    + simpl. apply Permutation_refl.
    + apply Permutation_trans with (rs ++ r :: List.concat (map snd gs)).
      * apply Permutation_app_head. exact IH.
      * apply Permutation_sym. apply Permutation_middle.
Qed.

Lemma kg_fold_perm (df : list A) :
  forall gs,
    Permutation
      (List.concat (map snd (fold_left (fun gs r => ins (key r) r gs) df gs)))
      (List.concat (map snd gs) ++ df).
Proof.
  induction df as [|r df IH]; intros gs; simpl.
  - rewrite app_nil_r. apply Permutation_refl.
  - eapply Permutation_trans; [apply IH|].
    eapply Permutation_trans;
      [apply Permutation_app_tail; apply kg_ins_perm|].
    simpl. apply Permutation_middle.
Qed.

End KeyedGroups.

(* ================================================================== *)
(** ** The two groupings of the dashboard *)

Lemma groupby_platform_sum (v : mrow -> Q) (df : list mrow) :
  Series.sum (map (fun g => Series.sum (map v (snd g))) (groupby platform df))
  == Series.sum (map v df).
Proof.
  unfold groupby.
  rewrite (kg_fold_sum String_as_OT.compare (@group_insert mrow) platform
                       (fun _ _ => eq_refl) (fun _ _ _ _ _ => eq_refl) v df []).
  cbn [map]. rewrite sum_nil. ring.
Qed.

Lemma groupby_platform_perm (df : list mrow) :
  Permutation (List.concat (map snd (groupby platform df))) df.
Proof.
  unfold groupby.
  exact (kg_fold_perm String_as_OT.compare (@group_insert mrow) platform
                      (fun _ _ => eq_refl) (fun _ _ _ _ _ => eq_refl) df []).
Qed.

Lemma groupby_date_groups (df : list mrow) :
  keyed_groups_of Z.lt Z.eqb date df (groupby_date date df).
Proof.
  unfold groupby_date.
  exact (kg_groups Z.compare Z.lt Z.eqb (@group_insert_date mrow) date
                   Z.compare_spec Z.lt_irrefl Z.lt_trans Z.eqb_eq
                   (fun _ _ => eq_refl) (fun _ _ _ _ _ => eq_refl) df).
Qed.

Lemma groupby_date_keys (df : list mrow) (d : Z) :
  In d (map fst (groupby_date date df)) <-> In d (map date df).
Proof.
  unfold groupby_date.
  exact (kg_keys Z.compare Z.lt Z.eqb (@group_insert_date mrow) date
                 Z.compare_spec Z.lt_irrefl Z.lt_trans Z.eqb_eq
                 (fun _ _ => eq_refl) (fun _ _ _ _ _ => eq_refl) df d).
Qed.

Lemma groupby_date_sum (v : mrow -> Q) (df : list mrow) :
  Series.sum (map (fun g => Series.sum (map v (snd g))) (groupby_date date df))
  == Series.sum (map v df).
Proof.
  unfold groupby_date.
  rewrite (kg_fold_sum Z.compare (@group_insert_date mrow) date
                       (fun _ _ => eq_refl) (fun _ _ _ _ _ => eq_refl) v df []).
  cbn [map]. rewrite sum_nil. ring.
Qed.

Lemma groupby_platform_zsum (v : mrow -> Z) (df : list mrow) :
  zsum (map (fun g => zsum (map v (snd g))) (groupby platform df))
  = zsum (map v df).
Proof.
  rewrite <- (zsum_perm _ _ (Permutation_map v (groupby_platform_perm df))).
  rewrite concat_map, zsum_concat, !map_map. reflexivity.
Qed.

(* ================================================================== *)
(** ** Channel statistics *)

Lemma inject_Z_zero_iff (n : Z) : inject_Z n == 0 <-> n = 0%Z.
Proof. unfold Qeq, inject_Z. simpl. lia. Qed.

(** Python's division of two object columns either meets a zero
    denominator and raises, or gives the quotients that numpy gives. *)
Lemma truediv_object_cases {A} (msg : string) (f g : A -> Q) (l : list A) :
  (Forall (fun x => ~ g x == 0) l /\
   truediv_object msg (map f l) (map g l)
   = Ok (Series.truediv (map f l) (map g l))) \/
  (Exists (fun x => g x == 0) l /\
   truediv_object msg (map f l) (map g l) = Raise (ZeroDivisionError msg)).
Proof.
  induction l as [|x l IH]; simpl.
  - left. split; [constructor|reflexivity].
  - destruct (Qeq_bool (g x) 0) eqn:E.
    + right. split; [|reflexivity]. left. apply Qeq_bool_iff. exact E.
    + apply Qeq_bool_neq in E. destruct IH as [[Hall Hok]|[Hex Hr]].
      * left. split; [constructor; assumption|].
        rewrite Hok. simpl. rewrite (pdiv_nonzero _ _ E). reflexivity.
      * right. split; [right; exact Hex|]. rewrite Hr. reflexivity.
Qed.

Lemma assign_stats_map (aggs : list agg_row) :
  assign_stats aggs
    (Series.truediv (map a_attributed_revenue aggs) (map a_spend aggs))
    (Series.mul
       (Series.truediv (Series.to_float (map a_clicks aggs))
                       (Series.to_float (map a_impression aggs)))
       100)
  = map stats_of_agg aggs.
Proof.
  induction aggs as [|a aggs IH]; simpl; [reflexivity|].
  f_equal. exact IH.
Qed.

(** How [create_channel_chart] ends on a table with rows: on float64/int64
    columns it returns; on object columns it returns when no channel has a
    zero total spend or zero total impressions, and raises otherwise. *)
Lemma create_channel_chart_cases (dt : dtype) (df : list mrow) :
  df <> [] ->
  let aggs := map (agg_sum dt) (groupby platform df) in
  let stats := map stats_of_agg aggs in
  let done :=
    Ok (Some (Bar "ROAS by Channel"
                  (map (fun s => (s_platform s, s_roas s)) stats)), stats) in
  match dt with
  | Numeric => create_channel_chart dt df = done
  | Object =>
      (Forall (fun a => ~ a_spend a == 0 /\ a_impression a <> 0%Z) aggs /\
       create_channel_chart dt df = done) \/
      (Exists (fun a => a_spend a == 0 \/ a_impression a = 0%Z) aggs /\
       exists msg, create_channel_chart dt df = Raise (ZeroDivisionError msg))
  end.
Proof.
  intros Hne aggs stats done. subst done stats.
  destruct df as [|r df]; [contradiction|].
  unfold create_channel_chart. cbn [empty]. fold aggs.
  destruct dt; cbn [truediv_on rbind].
  - rewrite assign_stats_map. reflexivity.
  - destruct (truediv_object_cases "float division by zero"
                                   a_attributed_revenue a_spend aggs)
      as [[Hs Hok]|[Hex Hr]].
    + rewrite Hok. cbn [rbind]. unfold Series.to_float. rewrite !map_map.
      destruct (truediv_object_cases
                  "division by zero"
                  (fun a => inject_Z (a_clicks a))
                  (fun a => inject_Z (a_impression a)) aggs)
        as [[Hi Hok2]|[Hex2 Hr2]].
      * left. split.
        -- rewrite Forall_forall in *. intros a Ha. split; [apply Hs; exact Ha|].
           intros E. apply (Hi a Ha). apply inject_Z_zero_iff. exact E.
        -- rewrite Hok2. cbn [rbind].
           rewrite <- (map_map a_clicks inject_Z),
             <- (map_map a_impression inject_Z).
           fold (Series.to_float (map a_clicks aggs)).
           fold (Series.to_float (map a_impression aggs)).
           rewrite assign_stats_map, !map_map. reflexivity.
      * right. split.
        -- apply Exists_exists in Hex2. destruct Hex2 as (a & Ha & E).
           apply Exists_exists. exists a. split; [exact Ha|]. right.
           apply inject_Z_zero_iff. exact E.
        -- exists "division by zero". rewrite Hr2. reflexivity.
    + right. split.
      * apply Exists_exists in Hex. destruct Hex as (a & Ha & E).
        apply Exists_exists. exists a. split; [exact Ha|]. left. exact E.
      * exists "float division by zero". rewrite Hr. reflexivity.
Qed.

Lemma create_channel_chart_numeric (df : list mrow) :
  df <> [] ->
  exists fig stats, create_channel_chart Numeric df = Ok (fig, stats).
Proof.
  intros Hne. pose proof (create_channel_chart_cases Numeric df Hne) as H.
  cbv zeta in H. eexists. eexists. exact H.
Qed.

(** What [stats] is whenever [create_channel_chart] returns. *)
Lemma create_channel_chart_stats (dt : dtype) (df : list mrow)
      (fig : option figure) (stats : list stats_row) :
  df <> [] ->
  create_channel_chart dt df = Ok (fig, stats) ->
  stats = map (fun g => stats_of_agg (agg_sum dt g)) (groupby platform df) /\
  fig = Some (Bar "ROAS by Channel"
                  (map (fun s => (s_platform s, s_roas s)) stats)) /\
  (dt = Object ->
   Forall (fun s => ~ s_spend s == 0 /\ s_impression s <> 0%Z) stats).
Proof.
  intros Hne Hok. pose proof (create_channel_chart_cases dt df Hne) as H.
  cbv zeta in H. destruct dt.
  - rewrite H in Hok. injection Hok as <- <-.
    split; [apply map_map|]. split; [reflexivity|discriminate].
  - destruct H as [[Hall H]|[_ (msg & H)]]; [|congruence].
    rewrite H in Hok. injection Hok as <- <-.
    split; [apply map_map|]. split; [reflexivity|]. intros _.
    rewrite Forall_map. exact Hall.
Qed.

Lemma create_channel_chart_platforms (dt : dtype) (df : list mrow)
      (fig : option figure) (stats : list stats_row) :
  df <> [] ->
  create_channel_chart dt df = Ok (fig, stats) ->
  map s_platform stats = map fst (groupby platform df).
Proof.
  intros Hne Hok.
  destruct (create_channel_chart_stats dt df fig stats Hne Hok) as (-> & _).
  rewrite map_map. reflexivity.
Qed.

Lemma create_spend_distribution_chart_slices (df : list mrow) :
  df <> [] ->
  create_spend_distribution_chart df
  = Some (Pie "Marketing Spend Distribution by Platform"
              (map (fun g : string * list mrow =>
                      (fst g, Series.sum (map spend (snd g))))
                   (groupby platform df))).
Proof.
  intros Hne. destruct df as [|r df]; [contradiction|]. reflexivity.
Qed.

(** Every row of [stats] holds the sums over the rows of its channel and
    the two ratios of those sums. *)
Lemma stats_row_sums (dt : dtype) (df : list mrow) (fig : option figure)
      (stats : list stats_row) (s : stats_row) :
  df <> [] ->
  create_channel_chart dt df = Ok (fig, stats) ->
  In s stats ->
  let rows := rows_of (s_platform s) df in
  rows <> [] /\
  s_spend s = Series.sum (map spend rows) /\
  s_attributed_revenue s = Series.sum (map attributed_revenue rows) /\
  s_clicks s = Series.sum_int dt (map clicks rows) /\
  s_impression s = Series.sum_int dt (map impression rows) /\
  s_roas s = pdiv (s_attributed_revenue s) (s_spend s) /\
  s_ctr s = fmul (pdiv (inject_Z (s_clicks s)) (inject_Z (s_impression s)))
                 100.
Proof.
  intros Hne Hok Hin rows. subst rows.
  destruct (create_channel_chart_stats dt df fig stats Hne Hok) as (-> & _).
  apply in_map_iff in Hin. destruct Hin as ([k rs] & <- & Hin).
  destruct (groupby_groups_of platform df) as (_ & Hrows & _).
  destruct (Hrows k rs Hin) as [Hrs Hnil].
  unfold rows_of. cbn [stats_of_agg agg_sum s_platform s_spend
    s_attributed_revenue s_clicks s_impression s_roas s_ctr a_platform
    a_spend a_attributed_revenue a_clicks a_impression fst snd].
  rewrite <- Hrs. repeat split. exact Hnil.
Qed.




(* ================================================================== *)
(** ** Order of the groups *)

Lemma unique_In (s : list string) (x : string) : In x (unique s) <-> In x s.
Proof.
  induction s as [|a s IH]; simpl; [reflexivity|].
  rewrite filter_In, IH, negb_true_iff, String.eqb_neq.
  destruct (String.eqb_spec x a) as [->|Hne]; intuition congruence.
Qed.

Lemma sorted_same_elements (l1 : list string) :
  forall l2,
    StronglySorted key_lt l1 -> StronglySorted key_lt l2 ->
    (forall x, In x l1 <-> In x l2) -> l1 = l2.
Proof.
  induction l1 as [|a l1 IH]; intros [|b l2] H1 H2 Hext.
  - reflexivity.
  - exfalso. apply (proj2 (Hext b)). left. reflexivity.
  - exfalso. apply (proj1 (Hext a)). left. reflexivity.
  - apply StronglySorted_inv in H1. destruct H1 as [H1 Ha].
    apply StronglySorted_inv in H2. destruct H2 as [H2 Hb].
    rewrite Forall_forall in Ha, Hb.
    assert (Hab : a = b).
    { destruct (proj1 (Hext a) (or_introl eq_refl)) as [E|Hin]; [auto|].
      destruct (proj2 (Hext b) (or_introl eq_refl)) as [E|Hin']; [auto|].
      exfalso. exact (lt_irrefl a (lt_trans _ _ _ (Ha b Hin') (Hb a Hin))). }
    subst b. f_equal. apply IH; try assumption.
    intros x. split; intros Hx.
    + destruct (proj1 (Hext x) (or_intror Hx)) as [E|Hin]; [|exact Hin].
      subst x. exfalso. exact (lt_irrefl a (Ha a Hx)).
    + destruct (proj2 (Hext x) (or_intror Hx)) as [E|Hin]; [|exact Hin].
      subst x. exfalso. exact (lt_irrefl a (Hb a Hx)).
Qed.

(** C9 (as amended).  For a non-empty table the slices of the spend pie
    come in ascending order of the platform name, one per platform of the
    table, and so do the rows of [stats] (returned on every float64/int64
    table, and whenever the aggregation returns), both in the same order;
    this is the order of first appearance exactly when the platforms first
    appear in ascending order. *)
Theorem channel_groups_sorted_by_key (dt : dtype) (df : list mrow) :
  df <> [] ->
  let slices := slices_of (create_spend_distribution_chart df) in
  (StronglySorted key_lt (map fst slices) /\
   (forall p, In p (map fst slices) <-> In p (map platform df)) /\
   (map fst slices = unique (map platform df) <->
    StronglySorted key_lt (unique (map platform df)))) /\
  (dt = Numeric ->
   exists fig stats, create_channel_chart dt df = Ok (fig, stats)) /\
  (forall fig stats,
     create_channel_chart dt df = Ok (fig, stats) ->
     StronglySorted key_lt (map s_platform stats) /\
     (forall p, In p (map s_platform stats) <-> In p (map platform df)) /\
     map fst slices = map s_platform stats /\
     (map s_platform stats = unique (map platform df) <->
      StronglySorted key_lt (unique (map platform df)))).
Proof.
  intros Hne slices. subst slices.
  rewrite (create_spend_distribution_chart_slices df Hne).
  cbn [slices_of]. rewrite map_map. cbn [fst].
  destruct (groupby_groups_of platform df) as (Hs & _ & _).
  assert (Hiff : map fst (groupby platform df) = unique (map platform df) <->
                 StronglySorted key_lt (unique (map platform df))).
  { split.
    - intros <-. exact Hs.
    - intros Hu. apply sorted_same_elements; try assumption.
      intros x. rewrite groupby_keys, unique_In. reflexivity. }
  split; [split; [exact Hs|split; [apply groupby_keys|exact Hiff]]|].
  split.
  - intros ->. apply create_channel_chart_numeric. exact Hne.
  - intros fig stats Hok.
    rewrite (create_channel_chart_platforms dt df fig stats Hne Hok).
    split; [exact Hs|]. split; [apply groupby_keys|].
    split; [reflexivity|exact Hiff].
Qed.

Lemma channel_groups_sorted_by_key_witness :
  let df := [Fixtures.row (Timestamp 2025 6 1) "Google" "NY" 1000 10 100 300;
             Fixtures.row (Timestamp 2025 6 1) "Facebook" "CA" 500 5 50 75;
             Fixtures.row (Timestamp 2025 6 2) "Google" "CA" 800 8 80 90] in
  df <> [] /\
  exists fig stats,
    create_channel_chart Numeric df = Ok (fig, stats) /\
    map s_platform stats = ["Facebook"; "Google"] /\
    StronglySorted key_lt (map s_platform stats) /\
    map fst (slices_of (create_spend_distribution_chart df))
    = ["Facebook"; "Google"].
Proof.
  intros df.
  assert (Hne : df <> []) by (subst df; discriminate).
  split; [exact Hne|].
  destruct (channel_groups_sorted_by_key Numeric df Hne)
    as (_ & Htotal & Hrows).
  destruct (Htotal eq_refl) as (fig & stats & Hok).
  destruct (Hrows fig stats Hok) as (Hs & _ & Hsl & _).
  exists fig, stats. split; [exact Hok|].
  assert (Hp : map s_platform stats = ["Facebook"; "Google"]).
  { rewrite <- Hsl. reflexivity. }
  split; [exact Hp|]. split; [exact Hs|reflexivity].
Defined.

(** C9 (as stated) fails: in a table whose first row is Google and whose
    second row is Facebook, Google is discovered first, yet both grouped
    outputs list Facebook first, whatever the dtype of the columns. *)
Lemma channel_groups_discovery_order_counterexample :
  let df := [Fixtures.row (Timestamp 2025 6 1) "Google" "NY" 1000 10 100 300;
             Fixtures.row (Timestamp 2025 6 1) "Facebook" "CA" 500 5 50 75] in
  unique (map platform df) = ["Google"; "Facebook"] /\
  (forall dt, exists fig stats,
      create_channel_chart dt df = Ok (fig, stats) /\
      map s_platform stats = ["Facebook"; "Google"] /\
      map s_platform stats <> unique (map platform df)) /\
  map fst (slices_of (create_spend_distribution_chart df))
  = ["Facebook"; "Google"] /\
  map fst (slices_of (create_spend_distribution_chart df))
  <> unique (map platform df).
Proof.
  intros df. split; [reflexivity|]. split; [|split].
  - intros dt. eexists. eexists.
    split; [destruct dt; vm_compute; reflexivity|].
    destruct dt; split; try reflexivity; vm_compute; discriminate.
  - reflexivity.
  - vm_compute. discriminate.
Qed.

(** The non-finite value of a division by zero: its sign is that of the
    numerator, and 0 / 0 is NaN. *)
Lemma pdiv_by_zero (a b : Q) :
  b == 0 ->
  pdiv a b = (if Qeq_bool a 0 then NaN
              else if Qle_bool a 0 then NInf else PInf).
Proof. intros Hb. unfold pdiv. rewrite (Qeq_eq_bool _ _ Hb). reflexivity. Qed.

Lemma ctr_by_zero (c i : Z) :
  i = 0%Z ->
  fmul (pdiv (inject_Z c) (inject_Z i)) 100
  = (if (c =? 0)%Z then NaN else if (c <=? 0)%Z then NInf else PInf).
Proof.
  intros ->. unfold pdiv.
  change (Qeq_bool (inject_Z 0) 0) with true. cbv iota.
  assert (He : Qeq_bool (inject_Z c) 0 = (c =? 0)%Z).
  { unfold Qeq_bool, inject_Z. cbn [Qnum Qden]. rewrite Z.mul_1_r.
    reflexivity. }
  assert (Hl : Qle_bool (inject_Z c) 0 = (c <=? 0)%Z).
  { unfold Qle_bool, inject_Z. cbn [Qnum Qden]. rewrite Z.mul_1_r.
    reflexivity. }
  rewrite He, Hl.
  destruct (c =? 0)%Z; [reflexivity|]. destruct (c <=? 0)%Z; reflexivity.
Qed.

(** C10.  The ratios of [stats] are divisions of the summed totals with no
    replacement of a zero denominator.  For a channel of the table whose
    total spend or total impressions are 0 the division by zero therefore
    happens: on float64/int64 columns [create_channel_chart] returns a row
    for the channel whose roas (for a zero spend) or ctr (for zero
    impressions) is NaN or an infinity, and on object columns it raises
    [ZeroDivisionError] and returns nothing. *)
Theorem channel_stats_unguarded (dt : dtype) (df : list mrow) (p : string) :
  In p (map platform df) ->
  qsum (map spend (rows_of p df)) == 0 \/
  int_total dt (map impression (rows_of p df)) = 0%Z ->
  match dt with
  | Numeric =>
      exists fig stats s,
        create_channel_chart dt df = Ok (fig, stats) /\
        In s stats /\ s_platform s = p /\
        s_spend s == qsum (map spend (rows_of p df)) /\
        s_attributed_revenue s
        == qsum (map attributed_revenue (rows_of p df)) /\
        s_impression s = int_total dt (map impression (rows_of p df)) /\
        (s_spend s == 0 ->
         is_finite (s_roas s) = false /\
         s_roas s = (if Qeq_bool (s_attributed_revenue s) 0 then NaN
                     else if Qle_bool (s_attributed_revenue s) 0 then NInf
                          else PInf)) /\
        (s_impression s = 0%Z ->
         is_finite (s_ctr s) = false /\
         s_ctr s = (if (s_clicks s =? 0)%Z then NaN
                    else if (s_clicks s <=? 0)%Z then NInf else PInf))
  | Object =>
      exists msg, create_channel_chart dt df = Raise (ZeroDivisionError msg)
  end.
Proof.
  intros Hp Hzero.
  assert (Hne : df <> []) by (intros ->; exact Hp).
  apply (groupby_keys platform) in Hp.
  apply in_map_iff in Hp. destruct Hp as ([k rs] & Hk & Hin).
  cbn [fst] in Hk. subst k.
  destruct (groupby_groups_of platform df) as (_ & Hrows & _).
  destruct (Hrows p rs Hin) as [Hrs _]. fold (rows_of p df) in Hrs.
  pose proof (create_channel_chart_cases dt df Hne) as Hcases.
  cbv zeta in Hcases.
  assert (Hagg : In (agg_sum dt (p, rs))
                    (map (agg_sum dt) (groupby platform df)))
    by (apply in_map; exact Hin).
  assert (Hsp : a_spend (agg_sum dt (p, rs))
                == qsum (map spend (rows_of p df))).
  { cbn [agg_sum a_spend snd]. rewrite Hrs. apply sum_qsum. }
  assert (Him : a_impression (agg_sum dt (p, rs))
                = int_total dt (map impression (rows_of p df))).
  { cbn [agg_sum a_impression snd]. rewrite Hrs. apply sum_int_total. }
  destruct dt.
  - eexists. eexists. exists (stats_of_agg (agg_sum Numeric (p, rs))).
    split; [exact Hcases|]. split; [apply in_map; exact Hagg|].
    split; [reflexivity|].
    cbn [stats_of_agg s_spend s_attributed_revenue s_impression s_clicks
      s_roas s_ctr].
    split; [exact Hsp|].
    split; [cbn [agg_sum a_attributed_revenue snd]; rewrite Hrs;
            apply sum_qsum|].
    split; [exact Him|]. split.
    + intros Hz. split; [apply pdiv_zero_not_finite; exact Hz|].
      apply pdiv_by_zero. exact Hz.
    + intros Hz.
      assert (Hq : inject_Z (a_impression (agg_sum Numeric (p, rs))) == 0)
        by (apply inject_Z_zero_iff; exact Hz).
      split; [apply fmul_not_finite, pdiv_zero_not_finite; exact Hq|].
      apply ctr_by_zero. exact Hz.
  - destruct Hcases as [[Hall _]|[_ Hraise]]; [|exact Hraise].
    exfalso. rewrite Forall_forall in Hall.
    destruct (Hall _ Hagg) as [Hs Hi].
    destruct Hzero as [Hz|Hz].
    + apply Hs. rewrite Hsp. exact Hz.
    + apply Hi. rewrite Him. exact Hz.
Qed.

Lemma channel_stats_unguarded_witness :
  (let df := [Fixtures.row (Timestamp 2025 6 1) "Google" "NY" 1000 10 100 300;
              Fixtures.row (Timestamp 2025 6 1) "TikTok" "CA" 0 4 0 25;
              Fixtures.row (Timestamp 2025 6 2) "TikTok" "CA" 0 0 0 0] in
   In "TikTok" (map platform df) /\
   qsum (map spend (rows_of "TikTok" df)) == 0 /\
   exists fig stats,
     create_channel_chart Numeric df = Ok (fig, stats) /\
     map s_platform stats = ["Google"; "TikTok"] /\
     map s_roas stats = [Fin (300 / 100); PInf] /\
     map s_ctr stats = [Fin (inject_Z 10 / inject_Z 1000 * 100); PInf]) /\
  (exists w m b,
      load_data Fixtures.randint Fixtures.uniform Fixtures.choice
                Fixtures.read_header_only Fixtures.read_business_csv
                Fixtures.parse_date 0%nat = Ok (w, (m, b)) /\
      load_dtype Fixtures.read_header_only Fixtures.read_business_csv
      = Object /\
      In "Google" (map platform m) /\
      qsum (map spend (rows_of "Google" m)) == 0 /\
      exists msg,
        create_channel_chart Object m = Raise (ZeroDivisionError msg)).
Proof.
  split.
  - intros df.
    assert (Hin : In "TikTok" (map platform df))
      by (simpl; right; left; reflexivity).
    assert (Hz : qsum (map spend (rows_of "TikTok" df)) == 0) by reflexivity.
    split; [exact Hin|]. split; [exact Hz|].
    destruct (channel_stats_unguarded Numeric df "TikTok" Hin (or_introl Hz))
      as (fig & stats & s & Hok & _).
    exists fig, stats. split; [exact Hok|].
    assert (Hst : Ok (fig, stats) = create_channel_chart Numeric df)
      by (symmetry; exact Hok).
    vm_compute in Hst. injection Hst as -> ->.
    split; [reflexivity|]. split; reflexivity.
  - destruct (load_data Fixtures.randint Fixtures.uniform Fixtures.choice
                        Fixtures.read_header_only Fixtures.read_business_csv
                        Fixtures.parse_date 0%nat)
      as [[w [m b]]|e] eqn:E; [|vm_compute in E; discriminate].
    vm_compute in E. injection E as <- <- <-.
    eexists. eexists. eexists. split; [reflexivity|].
    split; [reflexivity|].
    match goal with
    | |- In "Google" (map platform ?m) /\ _ =>
        assert (Hin : In "Google" (map platform m))
          by (simpl; right; left; reflexivity);
        assert (Hz : qsum (map spend (rows_of "Google" m)) == 0)
          by reflexivity;
        split; [exact Hin|]; split; [exact Hz|];
        exact (channel_stats_unguarded Object m "Google" Hin (or_introl Hz))
    end.
Defined.

Lemma groupby_platform_sumZ (dt : dtype) (v : mrow -> Z) (df : list mrow) :
  Series.sumZ (map (fun g => Series.sum_int dt (map v (snd g)))
                   (groupby platform df))
  = Series.sumZ (map v df).
Proof.
  rewrite !sumZ_wrap.
  transitivity
    (wrap64 (zsum (map (int_total dt)
                       (map (fun g : string * list mrow => map v (snd g))
                            (groupby platform df))))).
  - f_equal. f_equal. rewrite map_map. apply map_ext.
    intros g. apply sum_int_total.
  - rewrite zsum_map_int_total, map_map, groupby_platform_zsum. reflexivity.
Qed.

(** X1.  Every row of a non-empty table is counted in exactly one channel:
    the spend over the slices of the spend pie is the total spend that
    [calculate_kpis] reports for the same table and, whenever
    [create_channel_chart] returns (as it does on float64/int64 columns),
    so are the totals of spend and attributed revenue over the rows of
    [stats]; the clicks and impressions of [stats] add up to those of the
    table. *)
Theorem channel_totals_match_kpis (dt : dtype) (df : list mrow)
        (b : list brow) :
  df <> [] ->
  let k := calculate_kpis df b in
  Series.sum (map snd (slices_of (create_spend_distribution_chart df)))
  == total_spend k /\
  (dt = Numeric ->
   exists fig stats, create_channel_chart dt df = Ok (fig, stats)) /\
  (forall fig stats,
     create_channel_chart dt df = Ok (fig, stats) ->
     Series.sum (map s_spend stats) == total_spend k /\
     Series.sum (map s_attributed_revenue stats)
     == total_attributed_revenue k /\
     Series.sumZ (map s_clicks stats) = Series.sumZ (map clicks df) /\
     Series.sumZ (map s_impression stats) = Series.sumZ (map impression df)).
Proof.
  intros Hne k. subst k.
  rewrite (create_spend_distribution_chart_slices df Hne).
  assert (Hk : total_spend (calculate_kpis df b) = Series.sum (map spend df)
               /\ total_attributed_revenue (calculate_kpis df b)
                  = Series.sum (map attributed_revenue df)).
  { destruct df as [|r df]; [contradiction|].
    rewrite calculate_kpis_cons. split; reflexivity. }
  destruct Hk as [-> ->].
  cbn [slices_of]. rewrite map_map. cbn [snd].
  split; [apply groupby_platform_sum|]. split.
  - intros ->. apply create_channel_chart_numeric. exact Hne.
  - intros fig stats Hok.
    destruct (create_channel_chart_stats dt df fig stats Hne Hok) as (-> & _).
    rewrite !map_map.
    cbn [stats_of_agg agg_sum s_spend s_attributed_revenue s_clicks
      s_impression a_spend a_attributed_revenue a_clicks a_impression
      fst snd].
    split; [apply groupby_platform_sum|].
    split; [apply groupby_platform_sum|].
    split; apply groupby_platform_sumZ.
Qed.

Lemma channel_totals_match_kpis_witness :
  let df := [Fixtures.row (Timestamp 2025 6 1) "Google" "NY" 1000 10 100 300;
             Fixtures.row (Timestamp 2025 6 1) "Facebook" "CA" 500 5 50 75;
             Fixtures.row (Timestamp 2025 6 2) "Google" "CA" 800 8 80 90] in
  df <> [] /\
  exists fig stats,
    create_channel_chart Numeric df = Ok (fig, stats) /\
    map s_spend stats = [0 + 50; 0 + 100 + 80] /\
    Series.sum (map s_spend stats) == total_spend (calculate_kpis df []) /\
    Series.sumZ (map s_clicks stats) = 23%Z.
Proof.
  intros df.
  assert (Hne : df <> []) by (subst df; discriminate).
  split; [exact Hne|].
  destruct (channel_totals_match_kpis Numeric df [] Hne)
    as (_ & Htotal & Hrows).
  destruct (Htotal eq_refl) as (fig & stats & Hok).
  destruct (Hrows fig stats Hok) as (Hs & _ & Hc & _).
  exists fig, stats. split; [exact Hok|].
  split; [|split; [exact Hs|rewrite Hc; reflexivity]].
  assert (Hst : Ok (fig, stats) = create_channel_chart Numeric df)
    by (symmetry; exact Hok).
  vm_compute in Hst. injection Hst as _ ->. reflexivity.
Defined.

(** X2.  For a non-empty filtered table [daily_data] has one row per date
    of the table, in ascending order of date; each row holds the sums of
    spend and attributed revenue over the rows of its date, and the daily
    sums add up to the totals of the table. *)
Theorem daily_data_by_date (fm : list mrow) :
  fm <> [] ->
  exists rows,
    daily_data fm = Some rows /\
    StronglySorted Z.lt (map d_date rows) /\
    (forall d, In d (map d_date rows) <-> In d (map date fm)) /\
    (forall row, In row rows ->
       rows_on (d_date row) fm <> [] /\
       d_spend row = Series.sum (map spend (rows_on (d_date row) fm)) /\
       d_attributed_revenue row
       = Series.sum (map attributed_revenue (rows_on (d_date row) fm))) /\
    Series.sum (map d_spend rows) == Series.sum (map spend fm) /\
    Series.sum (map d_attributed_revenue rows)
    == Series.sum (map attributed_revenue fm).
Proof.
  intros Hne. destruct fm as [|r fm]; [contradiction|].
  unfold daily_data. cbn [empty negb].
  set (df := r :: fm).
  exists (map agg_daily (groupby_date date df)).
  destruct (groupby_date_groups df) as (Hs & Hrows & _).
  split; [reflexivity|]. rewrite !map_map. cbn [agg_daily d_date d_spend
    d_attributed_revenue].
  split; [exact Hs|]. split; [apply groupby_date_keys|].
  split; [|split; apply groupby_date_sum].
  intros row Hin. apply in_map_iff in Hin. destruct Hin as ([d rs] & <- & Hin).
  destruct (Hrows d rs Hin) as [Hrs Hnil].
  cbn [agg_daily d_date d_spend d_attributed_revenue fst snd].
  unfold rows_on. rewrite <- Hrs. repeat split. exact Hnil.
Qed.

Lemma daily_data_by_date_witness :
  let fm := [Fixtures.row (Timestamp 2025 6 2) "Google" "NY" 1000 10 100 300;
             Fixtures.row (Timestamp 2025 6 1) "Facebook" "CA" 500 5 50 75;
             Fixtures.row (Timestamp 2025 6 2) "TikTok" "CA" 800 8 80 90] in
  fm <> [] /\
  exists rows,
    daily_data fm = Some rows /\
    map d_date rows = [Timestamp 2025 6 1; Timestamp 2025 6 2] /\
    StronglySorted Z.lt (map d_date rows) /\
    Series.sum (map d_spend rows) == 230.
Proof.
  intros fm.
  assert (Hne : fm <> []) by (subst fm; discriminate).
  split; [exact Hne|].
  destruct (daily_data_by_date fm Hne) as (rows & Hd & Hs & _ & _ & Hsum & _).
  exists rows. split; [exact Hd|].
  assert (Hrows : Some rows = daily_data fm) by (symmetry; exact Hd).
  vm_compute in Hrows. injection Hrows as ->.
  split; [reflexivity|]. split; [exact Hs|]. exact Hsum.
Defined.

(* ================================================================== *)
(** ** The filter step and what [main] computes from it *)

Lemma filter_idem {A} (f : A -> bool) (l : list A) :
  filter f (filter f l) = filter f l.
Proof.
  induction l as [|x l IH]; simpl; [reflexivity|].
  destruct (f x) eqn:E; simpl; [rewrite E, IH|]; auto.
Qed.

Lemma filter_all {A} (f : A -> bool) (l : list A) :
  (forall x, In x l -> f x = true) -> filter f l = l.
Proof.
  induction l as [|x l IH]; simpl; intros H; [reflexivity|].
  rewrite (H x (or_introl eq_refl)). f_equal. apply IH.
  intros y Hy. apply H. right. exact Hy.
Qed.

(** A [date_range] of two dates is a two-element list. *)
Lemma length_two {A} (l : list A) :
  List.length l = 2%nat -> exists a b, l = [a; b].
Proof.
  destruct l as [|a [|b [|c l]]]; simpl; intros H; try discriminate.
  exists a, b. reflexivity.
Qed.

(** X3.  Filtering is idempotent: running the filter step of [main] again
    on its own output, with the same selections, changes nothing, whatever
    the shape of [date_range]. *)
Theorem main_filter_idempotent (m : list mrow) (b : list brow)
        (date_range : list Z) (ps ss : list string) :
  main_filter (fst (main_filter m b date_range ps ss))
              (snd (main_filter m b date_range ps ss)) date_range ps ss
  = main_filter m b date_range ps ss.
Proof.
  destruct (Nat.eqb (List.length date_range) 2) eqn:E.
  - apply Nat.eqb_eq in E. destruct (length_two _ E) as (s & e & ->).
    rewrite !main_filter_pair. cbn [fst snd].
    rewrite !filter_idem. reflexivity.
  - unfold main_filter. rewrite E. reflexivity.
Qed.



Lemma fold_min_le (l : list Z) :
  forall a, (fold_left Z.min l a <= a)%Z /\
            (forall x, In x l -> (fold_left Z.min l a <= x)%Z).
Proof.
  induction l as [|y l IH]; intros a; simpl.
  - split; [lia|intros x []].
  - destruct (IH (Z.min a y)) as [H1 H2]. split; [lia|].
    intros x [->|Hx]; [lia|apply H2; exact Hx].
Qed.

Lemma fold_max_ge (l : list Z) :
  forall a, (a <= fold_left Z.max l a)%Z /\
            (forall x, In x l -> (x <= fold_left Z.max l a)%Z).
Proof.
  induction l as [|y l IH]; intros a; simpl.
  - split; [lia|intros x []].
  - destruct (IH (Z.max a y)) as [H1 H2]. split; [lia|].
    intros x [->|Hx]; [lia|apply H2; exact Hx].
Qed.

Lemma series_min_le (s : list Z) (lo : Z) :
  series_min s = Some lo -> forall x, In x s -> (lo <= x)%Z.
Proof.
  destruct s as [|a s]; simpl; intros H; [discriminate|].
  injection H as <-. destruct (fold_min_le s a) as [H1 H2].
  intros x [->|Hx]; [exact H1|apply H2; exact Hx].
Qed.

Lemma series_max_ge (s : list Z) (hi : Z) :
  series_max s = Some hi -> forall x, In x s -> (x <= hi)%Z.
Proof.
  destruct s as [|a s]; simpl; intros H; [discriminate|].
  injection H as <-. destruct (fold_max_ge s a) as [H1 H2].
  intros x [->|Hx]; [exact H1|apply H2; exact Hx].
Qed.

Lemma date_of_le (ts : Z) : (date_of ts <= ts)%Z.
Proof.
  unfold date_of. rewrite Z.mul_comm.
  apply Z.mul_div_le. reflexivity.
Qed.

Lemma fold_max_in (l : list Z) :
  forall a, fold_left Z.max l a = a \/ In (fold_left Z.max l a) l.
Proof.
  induction l as [|y l IH]; intros a; simpl; [left; reflexivity|].
  destruct (IH (Z.max a y)) as [E|Hin]; [|right; right; exact Hin].
  rewrite E. destruct (Z.max_spec a y) as [[_ ->]|[_ ->]]; auto.
Qed.

Lemma series_max_in (s : list Z) (hi : Z) :
  series_max s = Some hi -> In hi s.
Proof.
  destruct s as [|a s]; simpl; intros H; [discriminate|].
  injection H as <-. destruct (fold_max_in s a) as [->|Hin]; auto.
Qed.

Lemma filter_eq_all {A} (f : A -> bool) (l : list A) :
  filter f l = l -> forall x, In x l -> f x = true.
Proof.
  intros E x Hx. rewrite <- E in Hx. apply filter_In in Hx. apply Hx.
Qed.

(** X5.  With the defaults that [main] hands to its widgets (the days of
    the earliest and of the latest marketing Timestamp, every platform and
    every state of the marketing table) the filter keeps exactly the
    marketing rows that are not later than the midnight that begins the
    latest day: the whole table when the latest Timestamp is a midnight,
    and not the whole table otherwise.  The business table is cut to the
    span between the two midnights. *)
Theorem default_selection_keeps_marketing (m : list mrow) (b : list brow)
        (range : list Z) :
  default_date_range m = Some range ->
  exists lo hi,
    series_min (map date m) = Some lo /\
    series_max (map date m) = Some hi /\
    range = [date_of lo; date_of hi] /\
    let out := main_filter m b range (unique (map platform m))
                           (unique (map state m)) in
    fst out = filter (fun r => (date r <=? date_of hi)%Z) m /\
    (date_of hi = hi -> fst out = m) /\
    (date_of hi <> hi -> fst out <> m) /\
    snd out = filter (fun r => (date_of lo <=? b_date r)%Z
                               && (b_date r <=? date_of hi)%Z) b.
Proof.
  unfold default_date_range. intros Hrange.
  destruct (series_min (map date m)) as [lo|] eqn:Hlo; [|discriminate].
  destruct (series_max (map date m)) as [hi|] eqn:Hhi; [|discriminate].
  injection Hrange as <-. exists lo, hi.
  split; [reflexivity|]. split; [reflexivity|]. split; [reflexivity|].
  cbv zeta. rewrite !main_filter_pair. cbn [fst snd].
  assert (Hkeep : forall x, In x m ->
            keep_marketing (date_of lo) (date_of hi) (unique (map platform m))
                           (unique (map state m)) x
            = (date x <=? date_of hi)%Z).
  { intros x Hx. unfold keep_marketing.
    pose proof (series_min_le _ _ Hlo _ (in_map date _ _ Hx)) as Hge.
    pose proof (date_of_le lo) as Hd.
    rewrite (proj2 (Z.leb_le (date_of lo) (date x))) by lia.
    rewrite (proj2 (existsb_eqb_In (platform x) (unique (map platform m))))
      by (apply unique_In, in_map; exact Hx).
    rewrite (proj2 (existsb_eqb_In (state x) (unique (map state m))))
      by (apply unique_In, in_map; exact Hx).
    rewrite !andb_true_r. reflexivity. }
  assert (Hfm : filter (keep_marketing (date_of lo) (date_of hi)
                                       (unique (map platform m))
                                       (unique (map state m))) m
                = filter (fun r => (date r <=? date_of hi)%Z) m).
  { apply filter_ext_in. exact Hkeep. }
  rewrite Hfm. split; [reflexivity|]. split; [|split; [|reflexivity]].
  - intros E. apply filter_all. intros x Hx. apply Z.leb_le. rewrite E.
    exact (series_max_ge _ _ Hhi _ (in_map date _ _ Hx)).
  - intros Hd E.
    pose proof (series_max_in _ _ Hhi) as Hin.
    apply in_map_iff in Hin. destruct Hin as (x & Hx & Hin).
    pose proof (filter_eq_all _ _ E x Hin) as Hle. cbv beta in Hle.
    apply Z.leb_le in Hle. rewrite Hx in Hle.
    pose proof (date_of_le hi). lia.
Qed.

Lemma default_selection_keeps_marketing_witness :
  let m := [Fixtures.row (Timestamp 2025 6 2) "Google" "NY" 1000 10 100 300;
            Fixtures.row (Timestamp 2025 6 1) "Facebook" "CA" 500 5 50 75;
            Fixtures.row (Timestamp 2025 6 2) "Google" "CA" 800 8 80 90] in
  let late := Fixtures.row (Timestamp 2025 6 2 + 12 * 3600 * 1000000000)
                           "Google" "NY" 1000 10 100 300 in
  let b := [Fixtures.business_row (Timestamp 2025 5 31) 40;
            Fixtures.business_row (Timestamp 2025 6 1) 50] in
  default_date_range m = Some [Timestamp 2025 6 1; Timestamp 2025 6 2] /\
  fst (main_filter m b [Timestamp 2025 6 1; Timestamp 2025 6 2]
                   (unique (map platform m)) (unique (map state m))) = m /\
  default_date_range (m ++ [late])
  = Some [Timestamp 2025 6 1; Timestamp 2025 6 2] /\
  fst (main_filter (m ++ [late]) b [Timestamp 2025 6 1; Timestamp 2025 6 2]
                   (unique (map platform (m ++ [late])))
                   (unique (map state (m ++ [late])))) = m.
Proof.
  intros m late b.
  assert (Hr : default_date_range m
               = Some [Timestamp 2025 6 1; Timestamp 2025 6 2])
    by reflexivity.
  split; [exact Hr|].
  destruct (default_selection_keeps_marketing m b _ Hr)
    as (lo & hi & _ & Hhi & _ & _ & Hall & _).
  split; [|split; reflexivity].
  apply Hall.
  assert (E : Some hi = series_max (map date m)) by (symmetry; exact Hhi).
  vm_compute in E. injection E as ->. reflexivity.
Defined.

(** X6.  A selection that no row can pass (no platform chosen, no state
    chosen, or an end date before the start date) leaves an empty marketing
    table, for which [main] gets the four zero KPIs, no channel chart and an
    empty [stats], no spend chart, and no daily table. *)
Theorem empty_selection_degrades (m : list mrow) (b : list brow) (s e : Z)
        (ps ss : list string) :
  ps = [] \/ ss = [] \/ (e < s)%Z ->
  let fm := fst (main_filter m b [s; e] ps ss) in
  let fb := snd (main_filter m b [s; e] ps ss) in
  fm = [] /\
  calculate_kpis fm fb
  = {| total_spend := 0; total_attributed_revenue := 0;
       overall_roas := Fin 0; blended_cac := Fin 0 |} /\
  (forall dt, create_channel_chart dt fm = Ok (None, [])) /\
  create_spend_distribution_chart fm = None /\
  daily_data fm = None.
Proof.
  intros H fm fb.
  assert (Hfm : fm = []).
  { subst fm. rewrite main_filter_pair. cbn [fst].
    apply filter_none. intros x _.
    destruct (keep_marketing s e ps ss x) eqn:E; [|reflexivity].
    apply keep_marketing_iff in E. destruct E as (Hd & Hp & Hs).
    destruct H as [->|[->|Hlt]]; [destruct Hp|destruct Hs|lia]. }
  rewrite Hfm. repeat split.
Qed.

Lemma empty_selection_degrades_witness :
  let m := [Fixtures.row (Timestamp 2025 6 1) "Google" "NY" 1000 10 100 300] in
  let b := [Fixtures.business_row (Timestamp 2025 6 1) 50] in
  fst (main_filter m b [Timestamp 2025 6 1; Timestamp 2025 6 1] [] ["NY"])
  = [] /\
  daily_data
    (fst (main_filter m b [Timestamp 2025 6 1; Timestamp 2025 6 1] [] ["NY"]))
  = None.
Proof.
  intros m b.
  destruct (empty_selection_degrades
              m b (Timestamp 2025 6 1) (Timestamp 2025 6 1) [] ["NY"]
              (or_introl eq_refl)) as (H1 & _ & _ & _ & H5).
  split; [exact H1|exact H5].
Defined.



(* ================================================================== *)
(** ** [load_data] on the CSV files *)

Section CsvPath.

Variable G : Type.
Variable randint : Z -> Z -> G -> Z * G.
Variable uniform : Q -> Q -> G -> Q * G.
Variable choice : list string -> G -> string * G.
Variable read_marketing_csv : string -> result (list csv_mrow).
Variable read_business_csv : string -> result (list raw_brow).
Variable parse_date : string -> string -> option Z.

(** The concatenated, tagged marketing frame. *)
Lemma read_files_ok (f gg t : list csv_mrow) (bz : list raw_brow) :
  read_marketing_csv "Facebook.csv" = Ok f ->
  read_marketing_csv "Google.csv" = Ok gg ->
  read_marketing_csv "TikTok.csv" = Ok t ->
  read_business_csv "Business.csv" = Ok bz ->
  read_files read_marketing_csv read_business_csv
  = Ok (map (set_platform "Facebook") f ++ map (set_platform "Google") gg
        ++ map (set_platform "TikTok") t, bz).
Proof.
  intros Hf Hg Ht Hb. unfold read_files, sources. simpl.
  rewrite Hf. simpl. rewrite Hg. simpl. rewrite Ht. simpl. rewrite Hb. simpl.
  rewrite app_nil_r. reflexivity.
Qed.

(** How the [try] body can end. *)
Lemma read_files_inv :
  match read_files read_marketing_csv read_business_csv with
  | Ok (mm, bb) =>
      first_exn (read_outcomes read_marketing_csv read_business_csv) = None /\
      exists f gg t,
        read_marketing_csv "Facebook.csv" = Ok f /\
        read_marketing_csv "Google.csv" = Ok gg /\
        read_marketing_csv "TikTok.csv" = Ok t /\
        read_business_csv "Business.csv" = Ok bb /\
        mm = map (set_platform "Facebook") f ++ map (set_platform "Google") gg
             ++ map (set_platform "TikTok") t
  | Raise e =>
      first_exn (read_outcomes read_marketing_csv read_business_csv) = Some e
  end.
Proof.
  unfold read_files, read_outcomes, sources. simpl.
  destruct (read_marketing_csv "Facebook.csv") as [f|e1]; simpl; [|reflexivity].
  destruct (read_marketing_csv "Google.csv") as [gg|e2]; simpl; [|reflexivity].
  destruct (read_marketing_csv "TikTok.csv") as [t|e3]; simpl; [|reflexivity].
  destruct (read_business_csv "Business.csv") as [bz|e4]; simpl; [|reflexivity].
  split; [reflexivity|]. exists f, gg, t. rewrite app_nil_r. repeat split.
Qed.

Lemma tagged_dates (p : string) (f : list csv_mrow) :
  map r_date (map (set_platform p) f) = map c_date f.
Proof. rewrite map_map. reflexivity. Qed.

Lemma tagged_platforms (p : string) (f : list csv_mrow) :
  map r_platform (map (set_platform p) f) = repeat p (List.length f).
Proof.
  induction f as [|c f IH]; simpl; [reflexivity|]. rewrite IH. reflexivity.
Qed.

Lemma combine_map_l {A B C} (h : A -> C) (l1 : list A) :
  forall l2 : list B,
    List.length l2 = List.length l1 ->
    map (fun p => h (fst p)) (combine l1 l2) = map h l1.
Proof.
  induction l1 as [|a l1 IH]; intros [|b l2] H; simpl in H;
    try discriminate; [reflexivity|].
  injection H as H. simpl. rewrite (IH l2 H). reflexivity.
Qed.

Lemma combine_map_r {A B} (l1 : list A) :
  forall l2 : list B,
    List.length l2 = List.length l1 -> map snd (combine l1 l2) = l2.
Proof.
  induction l1 as [|a l1 IH]; intros [|b l2] H; simpl in H;
    try discriminate; [reflexivity|].
  injection H as H. simpl. rewrite (IH l2 H). reflexivity.
Qed.

Lemma assign_business_cells (df : list raw_brow) :
  forall dates,
    List.length dates = List.length df ->
    map (fun y => (orders y, new_customers y, total_revenue y, gross_profit y))
        (assign_business df dates)
    = map (fun r => (rb_orders r, rb_new_customers r, rb_total_revenue r,
                     rb_gross_profit r)) df.
Proof.
  induction df as [|r df IH]; intros [|d dates] H; simpl in H;
    try discriminate; [reflexivity|].
  injection H as H. simpl. rewrite (IH dates H). reflexivity.
Qed.

(** The first date text that does not fit the column stops the
    conversion. *)
Lemma to_datetime_fails (s : list cell_date) (txt : string) :
  In (DStr txt) s -> column_parser parse_date s txt = None ->
  exists txt', In (DStr txt') s /\ column_parser parse_date s txt' = None /\
               to_datetime parse_date s = Raise (ValueError txt').
Proof.
  unfold to_datetime.
  generalize (column_parser parse_date s). intros parse.
  induction s as [|c s IH]; intros Hin Hnone; [destruct Hin|].
  destruct c as [t0|d]; simpl.
  - destruct (parse t0) as [d|] eqn:E0.
    + destruct Hin as [E|Hin]; [injection E as ->; congruence|].
      destruct (IH Hin Hnone) as (txt' & Hin' & Hn' & Hr).
      exists txt'. split; [right; exact Hin'|]. split; [exact Hn'|].
      simpl. rewrite Hr. reflexivity.
    + exists t0. split; [left; reflexivity|]. split; [exact E0|reflexivity].
  - destruct Hin as [E|Hin]; [discriminate|].
    destruct (IH Hin Hnone) as (txt' & Hin' & Hn' & Hr).
    exists txt'. split; [right; exact Hin'|]. split; [exact Hn'|].
    simpl. rewrite Hr. reflexivity.
Qed.

End CsvPath.

(** X8.  When the four files are read and [pd.to_datetime] converts both
    date columns (every date text fits the format of its column),
    [load_data] returns without a warning; the marketing table is the Facebook rows,
    then the Google rows, then the TikTok rows, each in file order and
    tagged with its platform, with the parsed dates and the cells of the
    files unchanged; the business table keeps its rows and cells. *)
Theorem load_data_reads_csv
        {G} randint uniform choice rm rb parse_date (g : G)
        (f gg t : list csv_mrow) (bz : list raw_brow) (md bd : list Z) :
  rm "Facebook.csv" = Ok f ->
  rm "Google.csv" = Ok gg ->
  rm "TikTok.csv" = Ok t ->
  rb "Business.csv" = Ok bz ->
  to_datetime parse_date (map c_date (f ++ gg ++ t)) = Ok md ->
  to_datetime parse_date (map rb_date bz) = Ok bd ->
  exists m b,
    load_data randint uniform choice rm rb parse_date g = Ok ([], (m, b)) /\
    map platform m
    = repeat "Facebook" (List.length f) ++ repeat "Google" (List.length gg)
      ++ repeat "TikTok" (List.length t) /\
    map date m = md /\
    map row_cells m = map csv_cells (f ++ gg ++ t) /\
    map b_date b = bd /\
    map (fun y => (orders y, new_customers y, total_revenue y, gross_profit y))
        b
    = map (fun r => (rb_orders r, rb_new_customers r, rb_total_revenue r,
                     rb_gross_profit r)) bz.
Proof.
  intros Hf Hg Ht Hb Hmd Hbd.
  set (raw := map (set_platform "Facebook") f
              ++ map (set_platform "Google") gg
              ++ map (set_platform "TikTok") t).
  assert (Hdates : map r_date raw = map c_date (f ++ gg ++ t)).
  { unfold raw. rewrite !map_app, !tagged_dates. reflexivity. }
  assert (Hlen : List.length md = List.length raw).
  { rewrite (to_datetime_length _ _ _ Hmd), <- Hdates, !length_map.
    reflexivity. }
  assert (Hlenb : List.length bd = List.length bz).
  { rewrite (to_datetime_length _ _ _ Hbd), length_map. reflexivity. }
  exists (map (fun rd => derive_row (fst rd) (snd rd)) (combine raw md)),
    (assign_business bz bd).
  split; [|split; [|split; [|split; [|split]]]].
  - unfold load_data. rewrite (read_files_ok rm rb f gg t bz Hf Hg Ht Hb).
    fold raw. unfold convert_and_derive. rewrite Hdates, Hmd, Hbd.
    unfold rbind. f_equal. f_equal. f_equal.
    apply assign_marketing_derive. exact Hlen.
  - rewrite map_map. cbn [derive_row platform].
    rewrite (combine_map_l r_platform raw md Hlen).
    unfold raw. rewrite !map_app, !tagged_platforms. reflexivity.
  - rewrite map_map. cbn [derive_row date].
    apply combine_map_r. exact Hlen.
  - rewrite map_map. unfold row_cells. cbn [derive_row tactic state impression
      clicks spend attributed_revenue].
    rewrite (combine_map_l
               (fun r => (r_tactic r, r_state r, r_impression r, r_clicks r,
                          r_spend r, r_attributed_revenue r)) raw md Hlen).
    unfold raw. rewrite !map_app, !map_map. reflexivity.
  - apply assign_business_dates. exact Hlenb.
  - apply assign_business_cells. exact Hlenb.
Qed.

Lemma load_data_reads_csv_witness :
  exists m b,
    load_data Fixtures.randint Fixtures.uniform Fixtures.choice
              Fixtures.read_marketing_csv Fixtures.read_business_csv
              Fixtures.parse_date 0%nat = Ok ([], (m, b)) /\
    map platform m = ["Facebook"; "Facebook"] /\
    map date m = [Timestamp 2025 6 1; Timestamp 2025 6 2] /\
    map b_date b = [Timestamp 2025 6 1].
Proof.
  destruct (load_data_reads_csv
              Fixtures.randint Fixtures.uniform Fixtures.choice
              Fixtures.read_marketing_csv Fixtures.read_business_csv
              Fixtures.parse_date 0%nat
              [Fixtures.csv_row "2025-06-01" 0 3 0 5;
               Fixtures.csv_row "2025-06-02" 1000 0 7 21] [] []
              [{| rb_date := DStr "2025-06-01"; rb_orders := 250%Z;
                  rb_new_customers := 50%Z; rb_total_revenue := 30000;
                  rb_gross_profit := 15000 |}]
              [Timestamp 2025 6 1; Timestamp 2025 6 2] [Timestamp 2025 6 1]
              eq_refl eq_refl eq_refl eq_refl eq_refl eq_refl)
    as (m & b & Hload & Hp & Hd & _ & Hb & _).
  exists m, b. split; [exact Hload|]. split; [exact Hp|].
  split; [exact Hd|exact Hb].
Defined.

(** X9.  A date text that [pd.to_datetime] cannot parse is fatal: when the
    four files are read but some date cell of a marketing file does not fit
    the format of the date column, [load_data] raises a [ValueError] for
    such a cell; there is no fallback to the sample data, the conversion
    being outside the [try]. *)
Theorem load_data_unparsable_date_raises
        {G} randint uniform choice rm rb parse_date (g : G)
        (f gg t : list csv_mrow) (bz : list raw_brow) (txt : string) :
  rm "Facebook.csv" = Ok f ->
  rm "Google.csv" = Ok gg ->
  rm "TikTok.csv" = Ok t ->
  rb "Business.csv" = Ok bz ->
  In (DStr txt) (map c_date (f ++ gg ++ t)) ->
  column_parser parse_date (map c_date (f ++ gg ++ t)) txt = None ->
  exists txt',
    In (DStr txt') (map c_date (f ++ gg ++ t)) /\
    column_parser parse_date (map c_date (f ++ gg ++ t)) txt' = None /\
    load_data randint uniform choice rm rb parse_date g
    = Raise (ValueError txt').
Proof.
  intros Hf Hg Ht Hb Hin Hnone.
  destruct (to_datetime_fails parse_date _ _ Hin Hnone)
    as (txt' & Hin' & Hn' & Hr).
  exists txt'. split; [exact Hin'|]. split; [exact Hn'|].
  unfold load_data. rewrite (read_files_ok rm rb f gg t bz Hf Hg Ht Hb).
  unfold convert_and_derive.
  rewrite !map_app, !tagged_dates, <- !map_app, Hr. reflexivity.
Qed.

Lemma load_data_unparsable_date_raises_witness :
  let read := fun file : string =>
                if String.eqb file "TikTok.csv"
                then Ok [Fixtures.csv_row "01/06/2025" 1000 10 100 300]
                else Fixtures.read_marketing_csv file in
  Fixtures.parse_date "2025-06-01" "01/06/2025" = None /\
  load_data Fixtures.randint Fixtures.uniform Fixtures.choice
            read Fixtures.read_business_csv Fixtures.parse_date 0%nat
  = Raise (ValueError "01/06/2025").
Proof.
  intros read.
  destruct (load_data_unparsable_date_raises
              Fixtures.randint Fixtures.uniform Fixtures.choice
              read Fixtures.read_business_csv Fixtures.parse_date 0%nat
              [Fixtures.csv_row "2025-06-01" 0 3 0 5;
               Fixtures.csv_row "2025-06-02" 1000 0 7 21] []
              [Fixtures.csv_row "01/06/2025" 1000 10 100 300]
              [{| rb_date := DStr "2025-06-01"; rb_orders := 250%Z;
                  rb_new_customers := 50%Z; rb_total_revenue := 30000;
                  rb_gross_profit := 15000 |}]
              "01/06/2025" eq_refl eq_refl eq_refl eq_refl
              (or_intror (or_intror (or_introl eq_refl))) eq_refl)
    as (txt' & _ & _ & Hr).
  split; [reflexivity|].
  rewrite Hr. vm_compute in Hr. injection Hr as <-. reflexivity.
Defined.

(* ================================================================== *)
(** ** What a returned Dataset looks like *)

Lemma derived_rows_platform (raw : list raw_mrow) (dates : list Z) (x : mrow) :
  In x (map (fun rd => derive_row (fst rd) (snd rd)) (combine raw dates)) ->
  exists r, In r raw /\ platform x = r_platform r /\ spend x = r_spend r /\
            attributed_revenue x = r_attributed_revenue r /\
            roas x = pdiv (r_attributed_revenue r)
                          (if Qeq_bool (r_spend r) 0 then 1 else r_spend r).
Proof.
  intros Hx. apply in_map_iff in Hx. destruct Hx as ([r d] & <- & Hin).
  exists r. split; [exact (in_combine_l _ _ _ _ Hin)|]. repeat split.
Qed.

(** X10.  Whenever [load_data] returns, every marketing row carries one of
    the three platform names, and the warning tells the two ways of
    returning apart: no warning exactly when all four files were read, one
    warning and 360 + 120 sample rows when the first failing read found no
    file. *)
Theorem load_data_returns
        {G} randint uniform choice rm rb parse_date (g : G)
        (w : list string) (m : list mrow) (b : list brow) :
  load_data randint uniform choice rm rb parse_date g = Ok (w, (m, b)) ->
  (forall x, In x m -> In (platform x) ["Facebook"; "Google"; "TikTok"]) /\
  ((w = [] /\ first_exn (read_outcomes rm rb) = None) \/
   (exists msg,
       w = [warning_text (FileNotFoundError msg)] /\
       first_exn (read_outcomes rm rb) = Some (FileNotFoundError msg) /\
       List.length m = 360%nat /\ List.length b = 120%nat)).
Proof.
  unfold load_data. intros H.
  pose proof (read_files_inv rm rb) as Hinv.
  destruct (read_files rm rb) as [[mdf bdf]|e].
  - destruct Hinv as (Hnone & f & gg & t & _ & _ & _ & _ & Hmdf).
    destruct (convert_and_derive parse_date mdf bdf) as [[m0 b0]|e] eqn:E;
      simpl in H; [|discriminate].
    injection H as <- <- <-.
    destruct (convert_and_derive_rows _ _ _ _ _ E) as (dates & _ & _ & ->).
    split; [|left; split; [reflexivity|exact Hnone]].
    intros x Hx. destruct (derived_rows_platform _ _ _ Hx) as (r & Hr & -> & _).
    rewrite Hmdf in Hr. rewrite !in_app_iff, !in_map_iff in Hr.
    destruct Hr as [(c & <- & _)|[(c & <- & _)|(c & <- & _)]]; simpl; auto.
  - destruct e as [msg|msg|msg|msg]; try discriminate.
    destruct (convert_sample G randint uniform choice parse_date g)
      as (m1 & b1 & Hconv & Hm & Hb).
    destruct (sample_data randint uniform choice g) as [sample g'].
    simpl fst in Hconv. rewrite Hconv in H. simpl in H.
    injection H as <- <- <-.
    split.
    + intros x Hx.
      apply (in_map (fun x => (date x, platform x))) in Hx.
      rewrite Hm in Hx. apply in_flat_map in Hx.
      destruct Hx as (d & _ & Hx). apply in_map_iff in Hx.
      destruct Hx as (p & E & Hp). injection E as _ <-. exact Hp.
    + right. exists msg. split; [reflexivity|]. split; [exact Hinv|]. split.
      * rewrite <- (length_map (fun x => (date x, platform x)) m1), Hm.
        reflexivity.
      * rewrite <- (length_map b_date b1), Hb. reflexivity.
Qed.

Lemma load_data_returns_witness :
  exists w m b,
    load_data Fixtures.randint Fixtures.uniform Fixtures.choice
              Fixtures.read_marketing_csv Fixtures.read_business_csv
              Fixtures.parse_date 0%nat = Ok (w, (m, b)) /\
    (forall x, In x m -> In (platform x) ["Facebook"; "Google"; "TikTok"]) /\
    w = [].
Proof.
  destruct (load_data Fixtures.randint Fixtures.uniform Fixtures.choice
                      Fixtures.read_marketing_csv Fixtures.read_business_csv
                      Fixtures.parse_date 0%nat)
    as [[w [m b]]|e] eqn:E; [|vm_compute in E; discriminate].
  exists w, m, b. split; [reflexivity|].
  destruct (load_data_returns _ _ _ _ _ _ _ _ _ _ E) as [Hp Hw].
  split; [exact Hp|].
  vm_compute in E. injection E as <- _ _. reflexivity.
Defined.

(* ================================================================== *)
(** ** The sample data under a generator that respects its bounds *)

Section SampleBounds.

Variable G : Type.
Variable randint : Z -> Z -> G -> Z * G.
Variable uniform : Q -> Q -> G -> Q * G.
Variable choice : list string -> G -> string * G.

Hypothesis uniform_in_range :
  forall lo hi g, lo <= hi -> lo <= fst (uniform lo hi g) <= hi.

(** A property of every row a loop draws. *)
Lemma gfor_all {A B} (f : A -> Rand G B) (P : B -> Prop) :
  (forall x g, P (fst (f x g))) ->
  forall l g, Forall P (fst (gfor f l g)).
Proof.
  intros Hf. induction l as [|x l IH]; intros g; simpl; [constructor|].
  unfold gbind.
  pose proof (Hf x g) as Hx. destruct (f x g) as [y g1].
  pose proof (IH g1) as Hl. destruct (gfor f l g1) as [ys g2].
  simpl in *. constructor; assumption.
Qed.

Lemma sample_marketing_row_bounds (d : Z) (p : string) (g : G) :
  let r := fst (sample_marketing_row randint uniform choice d p g) in
  500 <= r_spend r <= 3000 /\
  exists k, 3 # 2 <= k <= 4 /\ r_attributed_revenue r = r_spend r * k.
Proof.
  unfold sample_marketing_row, gbind, gret.
  destruct (randint 50000 200000 g) as [i g1].
  destruct (randint 1000 5000 g1) as [c g2].
  assert (Hs := uniform_in_range 500 3000 g2 ltac:(discriminate)).
  destruct (uniform 500 3000 g2) as [sp g3].
  destruct (choice ["ASC"; "Retargeting"; "Search"] g3) as [ta g4].
  destruct (choice ["NY"; "CA"; "TX"; "FL"] g4) as [st g5].
  assert (Hk := uniform_in_range (3 # 2) 4 g5 ltac:(discriminate)).
  destruct (uniform (3 # 2) 4 g5) as [k g6].
  simpl in *. split; [exact Hs|]. exists k. split; [exact Hk|reflexivity].
Qed.

Lemma sample_data_bounds (g : G) :
  Forall (fun r => 500 <= r_spend r <= 3000 /\
                   exists k, 3 # 2 <= k <= 4 /\
                             r_attributed_revenue r = r_spend r * k)
         (fst (fst (sample_data randint uniform choice g))).
Proof.
  unfold sample_data, gbind, gret.
  pose proof (gfor_all
                (fun d => gfor (sample_marketing_row randint uniform choice d)
                               sample_platforms)
                (Forall (fun r => 500 <= r_spend r <= 3000 /\
                                  exists k, 3 # 2 <= k <= 4 /\
                                            r_attributed_revenue r
                                            = r_spend r * k))) as Hall.
  specialize (Hall (fun d g0 => gfor_all _ _
                      (sample_marketing_row_bounds d) sample_platforms g0)
                   (date_range_D (Timestamp 2025 5 16) 120) g).
  destruct (gfor _ (date_range_D (Timestamp 2025 5 16) 120) g)
    as [per_day g1].
  destruct (gfor _ (date_range_D (Timestamp 2025 5 16) 120) g1)
    as [business_data g2].
  simpl in *. apply Forall_concat. exact Hall.
Qed.

End SampleBounds.

(** X11.  If [np.random.uniform] stays within the bounds it is given, every
    marketing row of the sample data has a spend between 500 and 3000 and a
    roas equal to the multiplier drawn between 1.5 and 4. *)
Theorem sample_roas_within_bounds
        {G} randint uniform choice rm rb parse_date (g : G) (msg : string)
        (w : list string) (m : list mrow) (b : list brow) (x : mrow) :
  (forall lo hi g0, lo <= hi -> lo <= fst (uniform lo hi g0) <= hi) ->
  first_exn (read_outcomes rm rb) = Some (FileNotFoundError msg) ->
  load_data randint uniform choice rm rb parse_date g = Ok (w, (m, b)) ->
  In x m ->
  500 <= spend x <= 3000 /\
  exists q, roas x = Fin q /\ 3 # 2 <= q <= 4 /\
            q * spend x == attributed_revenue x.
Proof.
  intros Hu Hfirst Hload Hx.
  apply read_files_first_exn in Hfirst.
  unfold load_data in Hload. rewrite Hfirst in Hload.
  pose proof (sample_data_bounds G randint uniform choice Hu g) as Hall.
  destruct (sample_data randint uniform choice g) as [sample g'].
  simpl fst in Hall.
  destruct (convert_and_derive parse_date (fst sample) (snd sample))
    as [[m0 b0]|e] eqn:E; simpl in Hload; [|discriminate].
  injection Hload as _ <- _.
  destruct (convert_and_derive_rows _ _ _ _ _ E) as (dates & _ & _ & ->).
  destruct (derived_rows_platform _ _ _ Hx) as (r & Hr & _ & Hs & Ha & Hroas).
  rewrite Forall_forall in Hall.
  destruct (Hall r Hr) as (Hsp & k & Hk & Hrev).
  rewrite Hs, Ha, Hroas. split; [exact Hsp|].
  assert (Hnz : ~ r_spend r == 0).
  { intros E0. rewrite E0 in Hsp. destruct Hsp as [Hsp _].
    apply Qle_bool_iff in Hsp. discriminate. }
  destruct (Qeq_bool (r_spend r) 0) eqn:Eb;
    [apply Qeq_bool_iff in Eb; contradiction|].
  rewrite (pdiv_nonzero _ _ Hnz).
  exists (r_attributed_revenue r / r_spend r).
  split; [reflexivity|].
  assert (Hq : r_attributed_revenue r / r_spend r == k).
  { rewrite Hrev. field. exact Hnz. }
  split; [rewrite Hq; exact Hk|].
  field. exact Hnz.
Qed.

Lemma sample_roas_within_bounds_witness :
  exists w m b x,
    load_data Fixtures.randint Fixtures.uniform Fixtures.choice
              Fixtures.read_missing Fixtures.read_business_csv
              Fixtures.parse_date 0%nat = Ok (w, (m, b)) /\
    In x m /\
    500 <= spend x <= 3000 /\
    exists q, roas x = Fin q /\ 3 # 2 <= q <= 4 /\
              q * spend x == attributed_revenue x.
Proof.
  destruct (load_data Fixtures.randint Fixtures.uniform Fixtures.choice
                      Fixtures.read_missing Fixtures.read_business_csv
                      Fixtures.parse_date 0%nat)
    as [[w [m b]]|e] eqn:E; [|vm_compute in E; discriminate].
  destruct m as [|x m]; [vm_compute in E; discriminate|].
  exists w, (x :: m), b, x. split; [reflexivity|].
  split; [left; reflexivity|].
  apply (sample_roas_within_bounds
           Fixtures.randint Fixtures.uniform Fixtures.choice
           Fixtures.read_missing Fixtures.read_business_csv
           Fixtures.parse_date 0%nat
           "No such file or directory: 'Google.csv'" w (x :: m) b x).
  - intros lo hi g0 H. simpl. split; [apply Qle_refl|exact H].
  - reflexivity.
  - exact E.
  - left. reflexivity.
Defined.

(* ================================================================== *)
(** ** Channel ratios against the overall ratio *)

(** X12.  When every row of the table belongs to one platform and the total
    spend is positive, [create_channel_chart] returns on float64/int64
    columns, and whenever it returns, [stats] has rows for that platform
    only and their roas is the [overall_roas] that [calculate_kpis]
    reports: both are the quotient of the same two totals. *)
Theorem single_channel_roas_is_overall (dt : dtype) (df : list mrow)
        (b : list brow) (p : string) (fig : option figure)
        (stats : list stats_row) (s : stats_row) :
  (forall r, In r df -> platform r = p) ->
  0 < Series.sum (map spend df) ->
  (dt = Numeric ->
   exists fig' stats', create_channel_chart dt df = Ok (fig', stats')) /\
  (create_channel_chart dt df = Ok (fig, stats) ->
   In s stats ->
   s_platform s = p /\ s_roas s = overall_roas (calculate_kpis df b)).
Proof.
  intros Hp Hpos.
  assert (Hne : df <> []).
  { intros ->. exact (Qlt_irrefl 0 Hpos). }
  split; [intros ->; apply create_channel_chart_numeric; exact Hne|].
  intros Hok Hs.
  assert (Hsp : s_platform s = p).
  { pose proof (in_map s_platform _ _ Hs) as Hk.
    rewrite (create_channel_chart_platforms dt df fig stats Hne Hok) in Hk.
    apply (groupby_keys platform) in Hk. apply in_map_iff in Hk.
    destruct Hk as (r & <- & Hr). apply Hp. exact Hr. }
  split; [exact Hsp|].
  destruct (stats_row_sums dt df fig stats s Hne Hok Hs)
    as (_ & Hspend & Hrev & _ & _ & Hroas & _).
  assert (Hall : rows_of (s_platform s) df = df).
  { unfold rows_of. apply filter_all. intros r Hr.
    rewrite Hsp. apply String.eqb_eq. apply Hp. exact Hr. }
  rewrite Hall in Hspend, Hrev. rewrite Hroas, Hspend, Hrev.
  destruct df as [|r df]; [contradiction|].
  rewrite calculate_kpis_cons. cbv zeta. cbn [overall_roas].
  rewrite (proj2 (Qgt_bool_iff _ 0) Hpos). reflexivity.
Qed.

Lemma single_channel_roas_is_overall_witness :
  let df := [Fixtures.row (Timestamp 2025 6 1) "Google" "NY" 1000 10 100 300;
             Fixtures.row (Timestamp 2025 6 2) "Google" "CA" 800 8 80 60] in
  exists fig s,
    create_channel_chart Numeric df = Ok (fig, [s]) /\
    s_platform s = "Google" /\
    s_roas s = overall_roas (calculate_kpis df []) /\
    feq (s_roas s) (Fin 2).
Proof.
  intros df.
  destruct (create_channel_chart Numeric df) as [[fig stats]|e] eqn:E;
    [|vm_compute in E; discriminate].
  destruct stats as [|s l]; [vm_compute in E; discriminate|].
  assert (Hl : l = []) by (vm_compute in E; injection E as _ _ <-; reflexivity).
  subst l. exists fig, s. split; [reflexivity|].
  assert (Hp : forall r, In r df -> platform r = "Google").
  { intros r [<-|[<-|[]]]; reflexivity. }
  assert (Hpos : 0 < Series.sum (map spend df)) by reflexivity.
  destruct (single_channel_roas_is_overall
              Numeric df [] "Google" fig [s] s Hp Hpos) as [_ H].
  destruct (H E (or_introl eq_refl)) as [H1 H2].
  split; [exact H1|]. split; [exact H2|].
  rewrite H2. reflexivity.
Defined.
